(** * telebotx: the leveled logging facility of logger.go

    A shallow embedding of [logger.go]: the [LogLevel] enumeration, the
    [Logger] interface with its three built-in implementations
    ([DefaultLogger], [NoOpLogger], [StdLogger]) and the factory
    [NewLogger].

    Go pointers are addresses into typed heaps, methods are computations
    in a small state-and-outcome monad [Go], and everything a logger hands
    to an [io.Writer] is recorded, one record per [Write] call, in the
    output history of the world. *)

From Stdlib Require Import ZArith String Ascii List.
From stdpp Require Import base option gmap strings list pretty.

Local Open Scope string_scope.
Local Open Scope Z_scope.

(** ** LogLevel *)

(** [type LogLevel int]: any integer is a value of the type, the six
    named constants are the ones [iota] numbers from 0. *)
Definition LogLevel : Type := Z.

Definition LogLevelDebug : LogLevel := 0.
Definition LogLevelInfo : LogLevel := 1.
Definition LogLevelWarn : LogLevel := 2.
Definition LogLevelError : LogLevel := 3.
Definition LogLevelFatal : LogLevel := 4.
Definition LogLevelOff : LogLevel := 5.

(** [func (l LogLevel) String() string] *)
Definition LogLevel_String (l : LogLevel) : string :=
  match l with
  | 0 => "DEBUG"
  | 1 => "INFO"
  | 2 => "WARN"
  | 3 => "ERROR"
  | 4 => "FATAL"
  | 5 => "OFF"
  | _ => "UNKNOWN"
  end.

(** ** Pointers, writers and the world *)

(** An address of a typed heap; a Go pointer is [nil] or an address. *)
Definition addr : Type := positive.
Definition ptr : Type := option addr.

(** The destinations a [log.Logger] writes to. *)
Inductive io_Writer : Type :=
  | os_Stdout
  | os_Stderr
  | io_buffer (id : nat).

(** The part of [log.Logger] the code depends on: [log.New(out, prefix, flag)]. *)
Record log_Logger : Type := mk_log_Logger {
  lg_out : io_Writer;
  lg_prefix : string;
  lg_flag : Z
}.

(** [type DefaultLogger struct { logger *log.Logger; enabled bool; level LogLevel }] *)
Record DefaultLogger : Type := mk_DefaultLogger {
  dl_logger : ptr;
  dl_enabled : bool;
  dl_level : LogLevel
}.

(** [type StdLogger struct { logger *log.Logger; enabled bool }] *)
Record StdLogger : Type := mk_StdLogger {
  sl_logger : ptr;
  sl_enabled : bool
}.

(** The state a method call runs in: one heap per struct type, the wall
    clock, and the history of [Write] calls (destination and bytes), the
    oldest first. *)
Record World : Type := mk_World {
  w_logs : gmap positive log_Logger;
  w_DefaultLoggers : gmap positive DefaultLogger;
  w_StdLoggers : gmap positive StdLogger;
  w_now : Z;
  w_out : list (io_Writer * string)
}.

Definition World_write (dst : io_Writer) (bytes : string) (w : World) : World :=
  {| w_logs := w_logs w;
     w_DefaultLoggers := w_DefaultLoggers w;
     w_StdLoggers := w_StdLoggers w;
     w_now := w_now w;
     w_out := w_out w ++ [(dst, bytes)] |}.

Definition World_alloc_log (a : addr) (lg : log_Logger) (w : World) : World :=
  {| w_logs := <[a := lg]> (w_logs w);
     w_DefaultLoggers := w_DefaultLoggers w;
     w_StdLoggers := w_StdLoggers w;
     w_now := w_now w;
     w_out := w_out w |}.

Definition World_alloc_DefaultLogger (a : addr) (l : DefaultLogger) (w : World) : World :=
  {| w_logs := w_logs w;
     w_DefaultLoggers := <[a := l]> (w_DefaultLoggers w);
     w_StdLoggers := w_StdLoggers w;
     w_now := w_now w;
     w_out := w_out w |}.

Definition World_alloc_StdLogger (a : addr) (l : StdLogger) (w : World) : World :=
  {| w_logs := w_logs w;
     w_DefaultLoggers := w_DefaultLoggers w;
     w_StdLoggers := <[a := l]> (w_StdLoggers w);
     w_now := w_now w;
     w_out := w_out w |}.

(** ** The monad of Go computations *)

(** How a call ends: it returns, the process exits ([os.Exit]), or the
    goroutine panics. *)
Inductive Outcome (A : Type) : Type :=
  | Done (a : A)
  | Exit (code : Z)
  | Panic (reason : string).
Arguments Done {A} a.
Arguments Exit {A} code.
Arguments Panic {A} reason.

Definition Go (A : Type) : Type := World -> Outcome A * World.

Global Instance Go_ret : MRet Go := fun A a w => (Done a, w).

Global Instance Go_bind : MBind Go := fun A B k m w =>
  match m w with
  | (Done a, w') => k a w'
  | (Exit code, w') => (Exit code, w')
  | (Panic reason, w') => (Panic reason, w')
  end.

Definition nil_dereference : string :=
  "invalid memory address or nil pointer dereference".

Definition panic {A : Type} (reason : string) : Go A := fun w => (Panic reason, w).

(** [os.Exit(code)] *)
Definition os_Exit {A : Type} (code : Z) : Go A := fun w => (Exit code, w).

(** Reading through a pointer: [nil], or an address holding nothing, panics. *)
Definition load {A : Type} (heap : World -> gmap positive A) (p : ptr) : Go A :=
  fun w =>
    match p with
    | None => (Panic nil_dereference, w)
    | Some a =>
        match heap w !! a with
        | Some v => (Done v, w)
        | None => (Panic nil_dereference, w)
        end
    end.

(** [time.Now()] *)
Definition time_Now : Go Z := fun w => (Done (w_now w), w).

(** [dst.Write(bytes)] *)
Definition io_Writer_Write (dst : io_Writer) (bytes : string) : Go unit :=
  fun w => (Done tt, World_write dst bytes w).

(** ** Package log *)

Definition log_Ldate : Z := Z.shiftl 1 0.
Definition log_Ltime : Z := Z.shiftl 1 1.
Definition log_Lshortfile : Z := Z.shiftl 1 4.
Definition log_LstdFlags : Z := Z.lor log_Ldate log_Ltime.

(** The address of the package-level [std] logger, what [log.Default()] returns. *)
Definition log_std : addr := 1%positive.

Definition log_Default : Go ptr := mret (Some log_std).

(** [log.New(out, prefix, flag)] allocates a logger. *)
Definition log_New (out : io_Writer) (prefix : string) (flag : Z) : Go ptr :=
  fun w =>
    let a := fresh (dom (w_logs w)) in
    (Done (Some a), World_alloc_log a (mk_log_Logger out prefix flag) w).

Definition newline : string := String "010"%char EmptyString.

Fixpoint ends_with_newline (s : string) : bool :=
  match s with
  | EmptyString => false
  | String c EmptyString => Ascii.eqb c "010"%char
  | String _ rest => ends_with_newline rest
  end.

(** A logging event puts the header before the text and ends the record
    with a newline unless one is there already. *)
Definition log_record (header text : string) : string :=
  let buf := header +:+ text in
  if ends_with_newline buf then buf else buf +:+ newline.

(** The position of a call in the source, what [Lshortfile] prints. *)
Record Caller : Type := mk_Caller { call_file : string; call_line : Z }.

(** [strings.Contains(s, sub)] as a proposition. *)
Definition strings_Contains (s sub : string) : Prop :=
  exists before after, s = before +:+ sub +:+ after.

(** A format string with no verb in it. *)
Fixpoint no_verb (s : string) : bool :=
  match s with
  | EmptyString => true
  | String c rest => negb (Ascii.eqb c "%"%char) && no_verb rest
  end.

(** ** A fragment of package fmt

    The development is parametric in [fmt.Sprintf] and in the header
    [log.Logger] prints; the fragment below, with the verbs the tests
    use, instantiates it on concrete inputs. *)

Inductive any_value : Type :=
  | any_int (n : Z)
  | any_string (s : string).

Definition any_render (v : any_value) : string :=
  match v with
  | any_int n => pretty n
  | any_string s => s
  end.

Fixpoint Sprintf_fragment (format : string) (args : list any_value) : string :=
  match format with
  | EmptyString => EmptyString
  | String c rest =>
      if Ascii.eqb c "%"%char then
        match rest with
        | EmptyString => "%!(NOVERB)"
        | String v rest' =>
            if Ascii.eqb v "%"%char then String "%"%char (Sprintf_fragment rest' args)
            else
              match args with
              | a :: args' => any_render a +:+ Sprintf_fragment rest' args'
              | [] => "%!" +:+ String v "(MISSING)" +:+ Sprintf_fragment rest' []
              end
        end
      else String c (Sprintf_fragment rest args)
  end.

Definition formatHeader_fragment (prefix : string) (flag now : Z) (c : Caller) : string :=
  prefix +:+
  (if Z.testbit flag 0 || Z.testbit flag 1 then "t=" +:+ pretty now +:+ " " else "") +:+
  (if Z.testbit flag 4 then call_file c +:+ ":" +:+ pretty (call_line c) +:+ ": " else "").

(** ** The interface and its selectors *)

(** A value of the interface type [Logger]: [nil], or a dynamic type with
    its pointer. The three types of this package are named; a type
    declared elsewhere is known by its name. *)
Inductive Logger : Type :=
  | Logger_nil
  | Logger_NoOpLogger (p : ptr)
  | Logger_DefaultLogger (p : ptr)
  | Logger_StdLogger (p : ptr)
  | Logger_foreign (type : string) (p : ptr).

(** [type LogConfig struct { Enable bool; Level LogLevel; Prefix string; Logger Logger }] *)
Record LogConfig : Type := mk_LogConfig {
  cfg_Enable : bool;
  cfg_Level : LogLevel;
  cfg_Prefix : string;
  cfg_Logger : Logger
}.

(** The five emit methods of the interface. *)
Inductive EmitOp : Type := OpDebug | OpInfo | OpWarn | OpError | OpFatal.

(** The severity a method emits at. *)
Definition severity (op : EmitOp) : LogLevel :=
  match op with
  | OpDebug => LogLevelDebug
  | OpInfo => LogLevelInfo
  | OpWarn => LogLevelWarn
  | OpError => LogLevelError
  | OpFatal => LogLevelFatal
  end.

(** The bracketed tag of a severity, with the space the code puts after it. *)
Definition bracket_tag (s : LogLevel) : string :=
  "[" +:+ LogLevel_String s +:+ "] ".

(** What an observer of the output sees between two worlds: one more
    record, a line that ends with a newline and shows [tag] and [text]. *)
Definition writes_one_line (w w' : World) (tag text : string) : Prop :=
  exists (dst : io_Writer) (line : string),
    w' = World_write dst line w /\
    ends_with_newline line = true /\
    strings_Contains line tag /\
    strings_Contains line text.

(** The objects of the three heaps are what they were. *)
Definition same_objects (w w' : World) : Prop :=
  w_logs w' = w_logs w /\
  w_DefaultLoggers w' = w_DefaultLoggers w /\
  w_StdLoggers w' = w_StdLoggers w.

(** The process is terminated with a status other than zero. *)
Definition terminates_nonzero {A : Type} (o : Outcome A) : Prop :=
  exists code : Z, o = Exit code /\ code <> 0.

Definition panics {A : Type} (o : Outcome A) : Prop :=
  exists reason : string, o = Panic reason.

(** The address a pointer to a zero-size struct gets. *)
Definition runtime_zerobase : addr := 1%positive.

(** ** Sample inputs *)

(** The package-level logger of [log] and nothing else. *)
Definition World_start : World :=
  {| w_logs := {[ log_std := mk_log_Logger os_Stderr "" log_LstdFlags ]};
     w_DefaultLoggers := ∅;
     w_StdLoggers := ∅;
     w_now := 1700000000;
     w_out := [] |}.

(** The world of the tests: a [log.Logger] on a buffer with the prefix
    [NewLevelTestLogger] gives it, a [DefaultLogger] at level Warn on it,
    an enabled [StdLogger] on the package-level logger and a disabled one
    on nothing. *)
Definition World_tests : World :=
  {| w_logs := <[2%positive := mk_log_Logger (io_buffer 0) "[LEVEL] " 0]> (w_logs World_start);
     w_DefaultLoggers :=
       {[ 1%positive := {| dl_logger := Some 2%positive; dl_enabled := true;
                           dl_level := LogLevelWarn |} ]};
     w_StdLoggers :=
       <[2%positive := {| sl_logger := None; sl_enabled := false |}]>
         {[ 1%positive := {| sl_logger := Some log_std; sl_enabled := true |} ]};
     w_now := 1700000000;
     w_out := [] |}.

Definition LogConfig_disabled : LogConfig :=
  {| cfg_Enable := false; cfg_Level := LogLevelDebug; cfg_Prefix := "bot ";
     cfg_Logger := Logger_foreign "CustomTestLogger" (Some 7%positive) |}.

Definition LogConfig_custom : LogConfig :=
  {| cfg_Enable := true; cfg_Level := LogLevelError; cfg_Prefix := "bot ";
     cfg_Logger := Logger_foreign "CustomTestLogger" (Some 7%positive) |}.

Definition LogConfig_default : LogConfig :=
  {| cfg_Enable := true; cfg_Level := LogLevelInfo; cfg_Prefix := "bot ";
     cfg_Logger := Logger_nil |}.

Definition LogConfig_Off : LogConfig :=
  {| cfg_Enable := true; cfg_Level := LogLevelOff; cfg_Prefix := "";
     cfg_Logger := Logger_nil |}.

(** A world of struct literals: a [DefaultLogger] with no [log.Logger],
    one with a level below Debug and one with a level above Off, the last
    two on the buffer logger of [World_tests]. *)
Definition World_literals : World :=
  {| w_logs := w_logs World_tests;
     w_DefaultLoggers :=
       <[3%positive := {| dl_logger := Some 2%positive; dl_enabled := true;
                          dl_level := 9 |}]>
       (<[2%positive := {| dl_logger := Some 2%positive; dl_enabled := true;
                           dl_level := -3 |}]>
        {[ 1%positive := {| dl_logger := None; dl_enabled := true;
                            dl_level := LogLevelInfo |} ]});
     w_StdLoggers := ∅;
     w_now := 1700000000;
     w_out := [] |}.

Definition LogConfig_typed_nil : LogConfig :=
  {| cfg_Enable := true; cfg_Level := LogLevelDebug; cfg_Prefix := "";
     cfg_Logger := Logger_DefaultLogger None |}.

(** No type from outside the package is known to the samples. *)
Definition no_foreign_emit (type : string) (p : ptr) (op : EmitOp)
    (msg : string) (args : list any_value) : Go unit :=
  panic ("no method set for " +:+ type).

Definition no_foreign_LogMode (type : string) (p : ptr) : Go LogLevel :=
  panic ("no method set for " +:+ type).

Section LoggerGo.

(** The type [any] of the variadic arguments, [fmt.Sprintf], and the
    header [log.Logger] puts before a record (from its prefix and flags,
    the clock and the call site). *)
Variable any : Type.
Variable fmt_Sprintf : string -> list any -> string.
Variable log_formatHeader : string -> Z -> Z -> Caller -> string.

(** What [fmt.Sprintf] does with a format that starts with verb-free
    text: the text comes out as it is. *)
Hypothesis fmt_Sprintf_literal : forall (lit format : string) (args : list any),
  no_verb lit = true ->
  fmt_Sprintf (lit +:+ format) args = lit +:+ fmt_Sprintf format args.

(** The methods of a [Logger] whose type is declared outside the package. *)
Variable foreign_emit : string -> ptr -> EmitOp -> string -> list any -> Go unit.
Variable foreign_LogMode : string -> ptr -> Go LogLevel.

(** *** Package log, continued *)

(** [log.Logger.Output]: one [Write] to the destination per event. *)
Definition log_Logger_Output (l : ptr) (caller : Caller) (text : string) : Go unit :=
  lg ← load w_logs l;
  now ← time_Now;
  io_Writer_Write (lg_out lg)
    (log_record (log_formatHeader (lg_prefix lg) (lg_flag lg) now caller) text).

(** [log.Logger.Printf] *)
Definition log_Logger_Printf (l : ptr) (caller : Caller)
    (format : string) (v : list any) : Go unit :=
  log_Logger_Output l caller (fmt_Sprintf format v).

(** [log.Logger.Fatalf]: [Printf] followed by [os.Exit(1)]. *)
Definition log_Logger_Fatalf (l : ptr) (caller : Caller)
    (format : string) (v : list any) : Go unit :=
  log_Logger_Output l caller (fmt_Sprintf format v);;
  os_Exit 1.

Definition here (line : Z) : Caller := mk_Caller "logger.go" line.

(** *** DefaultLogger *)

Definition alloc_DefaultLogger (v : DefaultLogger) : Go ptr :=
  fun w =>
    let a := fresh (dom (w_DefaultLoggers w)) in
    (Done (Some a), World_alloc_DefaultLogger a v w).

Definition NewDefaultLogger (level : LogLevel) (prefix : string) : Go ptr :=
  logger ← log_New os_Stdout prefix (Z.lor log_LstdFlags log_Lshortfile);
  alloc_DefaultLogger
    {| dl_logger := logger; dl_enabled := true; dl_level := level |}.

Definition DefaultLogger_Debug (l : ptr) (msg : string) (args : list any) : Go unit :=
  this ← load w_DefaultLoggers l;
  if negb (dl_enabled this) || (dl_level this >? LogLevelDebug) then mret tt
  else log_Logger_Printf (dl_logger this) (here 87) ("[DEBUG] " +:+ msg) args.

Definition DefaultLogger_Info (l : ptr) (msg : string) (args : list any) : Go unit :=
  this ← load w_DefaultLoggers l;
  if negb (dl_enabled this) || (dl_level this >? LogLevelInfo) then mret tt
  else log_Logger_Printf (dl_logger this) (here 95) ("[INFO] " +:+ msg) args.

Definition DefaultLogger_Warn (l : ptr) (msg : string) (args : list any) : Go unit :=
  this ← load w_DefaultLoggers l;
  if negb (dl_enabled this) || (dl_level this >? LogLevelWarn) then mret tt
  else log_Logger_Printf (dl_logger this) (here 103) ("[WARN] " +:+ msg) args.

Definition DefaultLogger_Error (l : ptr) (msg : string) (args : list any) : Go unit :=
  this ← load w_DefaultLoggers l;
  if negb (dl_enabled this) || (dl_level this >? LogLevelError) then mret tt
  else log_Logger_Printf (dl_logger this) (here 111) ("[ERROR] " +:+ msg) args.

Definition DefaultLogger_Fatal (l : ptr) (msg : string) (args : list any) : Go unit :=
  this ← load w_DefaultLoggers l;
  if negb (dl_enabled this) || (dl_level this >? LogLevelFatal) then mret tt
  else
    log_Logger_Printf (dl_logger this) (here 119) ("[FATAL] " +:+ msg) args;;
    os_Exit 1.

Definition DefaultLogger_LogMode (l : ptr) : Go LogLevel :=
  this ← load w_DefaultLoggers l;
  if negb (dl_enabled this) then mret LogLevelOff
  else mret (dl_level this).

(** *** NoOpLogger: [type NoOpLogger struct{}] *)

Definition NewNoOpLogger : Go ptr := mret (Some runtime_zerobase).

Definition NoOpLogger_Debug (l : ptr) (msg : string) (args : list any) : Go unit := mret tt.
Definition NoOpLogger_Info (l : ptr) (msg : string) (args : list any) : Go unit := mret tt.
Definition NoOpLogger_Warn (l : ptr) (msg : string) (args : list any) : Go unit := mret tt.
Definition NoOpLogger_Error (l : ptr) (msg : string) (args : list any) : Go unit := mret tt.
Definition NoOpLogger_Fatal (l : ptr) (msg : string) (args : list any) : Go unit := mret tt.
Definition NoOpLogger_LogMode (l : ptr) : Go LogLevel := mret LogLevelOff.

(** *** StdLogger *)

Definition alloc_StdLogger (v : StdLogger) : Go ptr :=
  fun w =>
    let a := fresh (dom (w_StdLoggers w)) in
    (Done (Some a), World_alloc_StdLogger a v w).

Definition NewStdLogger (logger : ptr) (enabled : bool) : Go ptr :=
  logger ← (if decide (logger = None) then log_Default else mret logger);
  alloc_StdLogger {| sl_logger := logger; sl_enabled := enabled |}.

Definition StdLogger_Debug (l : ptr) (msg : string) (args : list any) : Go unit :=
  this ← load w_StdLoggers l;
  if negb (sl_enabled this) then mret tt
  else log_Logger_Printf (sl_logger this) (here 181) ("[DEBUG] " +:+ msg) args.

Definition StdLogger_Info (l : ptr) (msg : string) (args : list any) : Go unit :=
  this ← load w_StdLoggers l;
  if negb (sl_enabled this) then mret tt
  else log_Logger_Printf (sl_logger this) (here 189) ("[INFO] " +:+ msg) args.

Definition StdLogger_Warn (l : ptr) (msg : string) (args : list any) : Go unit :=
  this ← load w_StdLoggers l;
  if negb (sl_enabled this) then mret tt
  else log_Logger_Printf (sl_logger this) (here 197) ("[WARN] " +:+ msg) args.

Definition StdLogger_Error (l : ptr) (msg : string) (args : list any) : Go unit :=
  this ← load w_StdLoggers l;
  if negb (sl_enabled this) then mret tt
  else log_Logger_Printf (sl_logger this) (here 205) ("[ERROR] " +:+ msg) args.

Definition StdLogger_Fatal (l : ptr) (msg : string) (args : list any) : Go unit :=
  this ← load w_StdLoggers l;
  if negb (sl_enabled this) then mret tt
  else log_Logger_Fatalf (sl_logger this) (here 213) ("[FATAL] " +:+ msg) args.

Definition StdLogger_LogMode (l : ptr) : Go LogLevel :=
  this ← load w_StdLoggers l;
  if negb (sl_enabled this) then mret LogLevelOff
  else mret LogLevelDebug.

(** *** The factory *)

Definition NewLogger (config : LogConfig) : Go Logger :=
  if negb (cfg_Enable config) then
    p ← NewNoOpLogger; mret (Logger_NoOpLogger p)
  else
    match cfg_Logger config with
    | Logger_nil =>
        p ← NewDefaultLogger (cfg_Level config) (cfg_Prefix config);
        mret (Logger_DefaultLogger p)
    | supplied => mret supplied
    end.

(** *** Method selection and interface dispatch *)

Definition DefaultLogger_emit (op : EmitOp) : ptr -> string -> list any -> Go unit :=
  match op with
  | OpDebug => DefaultLogger_Debug
  | OpInfo => DefaultLogger_Info
  | OpWarn => DefaultLogger_Warn
  | OpError => DefaultLogger_Error
  | OpFatal => DefaultLogger_Fatal
  end.

Definition NoOpLogger_emit (op : EmitOp) : ptr -> string -> list any -> Go unit :=
  match op with
  | OpDebug => NoOpLogger_Debug
  | OpInfo => NoOpLogger_Info
  | OpWarn => NoOpLogger_Warn
  | OpError => NoOpLogger_Error
  | OpFatal => NoOpLogger_Fatal
  end.

Definition StdLogger_emit (op : EmitOp) : ptr -> string -> list any -> Go unit :=
  match op with
  | OpDebug => StdLogger_Debug
  | OpInfo => StdLogger_Info
  | OpWarn => StdLogger_Warn
  | OpError => StdLogger_Error
  | OpFatal => StdLogger_Fatal
  end.

(** A method call on an interface value; on the [nil] interface it panics. *)
Definition Logger_emit (i : Logger) (op : EmitOp) (msg : string) (args : list any) : Go unit :=
  match i with
  | Logger_nil => panic nil_dereference
  | Logger_NoOpLogger p => NoOpLogger_emit op p msg args
  | Logger_DefaultLogger p => DefaultLogger_emit op p msg args
  | Logger_StdLogger p => StdLogger_emit op p msg args
  | Logger_foreign type p => foreign_emit type p op msg args
  end.

Definition Logger_LogMode (i : Logger) : Go LogLevel :=
  match i with
  | Logger_nil => panic nil_dereference
  | Logger_NoOpLogger p => NoOpLogger_LogMode p
  | Logger_DefaultLogger p => DefaultLogger_LogMode p
  | Logger_StdLogger p => StdLogger_LogMode p
  | Logger_foreign type p => foreign_LogMode type p
  end.

(** One emit call, and a run of them on the same logger. *)
Record Call : Type := mk_Call {
  call_op : EmitOp;
  call_msg : string;
  call_args : list any
}.

Fixpoint Logger_emit_all (i : Logger) (calls : list Call) : Go unit :=
  match calls with
  | [] => mret tt
  | c :: rest =>
      Logger_emit i (call_op c) (call_msg c) (call_args c);;
      Logger_emit_all i rest
  end.

(** The line a passing emit hands to the destination of [lg]. *)
Definition emitted_line (lg : log_Logger) (now : Z) (line : Z)
    (op : EmitOp) (msg : string) (args : list any) : string :=
  log_record (log_formatHeader (lg_prefix lg) (lg_flag lg) now (here line))
             (bracket_tag (severity op) +:+ fmt_Sprintf msg args).

(** The source line of the [Printf] call of each method. *)
Definition DefaultLogger_line (op : EmitOp) : Z :=
  match op with
  | OpDebug => 87 | OpInfo => 95 | OpWarn => 103 | OpError => 111 | OpFatal => 119
  end.

Definition StdLogger_line (op : EmitOp) : Z :=
  match op with
  | OpDebug => 181 | OpInfo => 189 | OpWarn => 197 | OpError => 205 | OpFatal => 213
  end.

(** The types of this package, and the [nil] interface. *)
Definition of_this_package (i : Logger) : Prop :=
  match i with
  | Logger_foreign _ _ => False
  | _ => True
  end.

(** The result of an emit that reaches the [log.Logger]: the outcome
    [after] once the record is written, a panic on a [nil] logger. *)
Definition through_sink (sink : ptr) (line : Z) (op : EmitOp)
    (msg : string) (args : list any) (after : Outcome unit) (w : World)
    : Outcome unit * World :=
  match sink ≫= (w_logs w !!.) with
  | Some lg =>
      (after,
       World_write (lg_out lg)
         (log_record
            (log_formatHeader (lg_prefix lg) (lg_flag lg) (w_now w) (here line))
            (fmt_Sprintf (bracket_tag (severity op) +:+ msg) args))
         w)
  | None => (Panic nil_dereference, w)
  end.

Definition after_emit (op : EmitOp) : Outcome unit :=
  match op with
  | OpFatal => Exit 1
  | _ => Done tt
  end.

(** *** What a run of calls on a DefaultLogger is expected to leave *)

(** The receiver of a built-in logger is there, and so is the
    [log.Logger] its [logger] field points at. *)
Definition Logger_ready (w : World) (i : Logger) : Prop :=
  match i with
  | Logger_NoOpLogger _ => True
  | Logger_DefaultLogger (Some a) =>
      exists (this : DefaultLogger) (b : addr),
        w_DefaultLoggers w !! a = Some this /\
        dl_logger this = Some b /\ is_Some (w_logs w !! b)
  | Logger_StdLogger (Some a) =>
      exists (this : StdLogger) (b : addr),
        w_StdLoggers w !! a = Some this /\
        sl_logger this = Some b /\ is_Some (w_logs w !! b)
  | _ => False
  end.

(** Several records written one after the other. *)
Definition World_write_all (records : list (io_Writer * string)) (w : World) : World :=
  fold_left (fun acc r => World_write (fst r) (snd r) acc) records w.

(** The filter of [DefaultLogger], read as "the call passes". *)
Definition passes_floor (this : DefaultLogger) (op : EmitOp) : bool :=
  dl_enabled this && (dl_level this <=? severity op).

(** The records a run of calls should add: one per passing call, in
    order, none after a passing [Fatal]. *)
Fixpoint expected_records (this : DefaultLogger) (lg : log_Logger) (now : Z)
    (calls : list Call) : list (io_Writer * string) :=
  match calls with
  | [] => []
  | c :: rest =>
      if passes_floor this (call_op c) then
        (lg_out lg,
         emitted_line lg now (DefaultLogger_line (call_op c))
           (call_op c) (call_msg c) (call_args c))
        :: match call_op c with
           | OpFatal => []
           | _ => expected_records this lg now rest
           end
      else expected_records this lg now rest
  end.

(** How the run should end: exit status 1 at the first passing [Fatal]. *)
Fixpoint expected_outcome (this : DefaultLogger) (calls : list Call) : Outcome unit :=
  match calls with
  | [] => Done tt
  | c :: rest =>
      if passes_floor this (call_op c) then
        match call_op c with
        | OpFatal => Exit 1
        | _ => expected_outcome this rest
        end
      else expected_outcome this rest
  end.

(** ** Strings *)

Lemma append_cons (x : ascii) (a b : string) :
  String x a +:+ b = String x (a +:+ b).
Proof. reflexivity. Qed.

Lemma append_assoc (a b c : string) : (a +:+ b) +:+ c = a +:+ b +:+ c.
Proof.
  induction a as [|x a IH]; [reflexivity |].
  rewrite !append_cons. f_equal. exact IH.
Qed.

Lemma append_empty_r (a : string) : a +:+ "" = a.
Proof.
  induction a as [|x a IH]; [reflexivity |].
  rewrite append_cons. f_equal. exact IH.
Qed.

Lemma ends_with_newline_append (a : string) :
  ends_with_newline (a +:+ newline) = true.
Proof.
  induction a as [|x a IH]; [reflexivity |].
  rewrite append_cons.
  destruct a as [|y a]; [reflexivity |].
  rewrite append_cons in *. exact IH.
Qed.

Lemma log_record_ends (header text : string) :
  ends_with_newline (log_record header text) = true.
Proof.
  unfold log_record.
  destruct (ends_with_newline (header +:+ text)) eqn:E; [exact E |].
  apply ends_with_newline_append.
Qed.

Lemma log_record_shape (header text : string) :
  exists tail : string, log_record header text = header +:+ text +:+ tail.
Proof.
  unfold log_record.
  destruct (ends_with_newline (header +:+ text)).
  - exists "". now rewrite append_empty_r.
  - exists newline. now rewrite append_assoc.
Qed.

Lemma strings_Contains_middle (a b c : string) :
  strings_Contains (a +:+ b +:+ c) b.
Proof. now exists a, c. Qed.

Lemma strings_Contains_trans (s t u : string) :
  strings_Contains s t -> strings_Contains t u -> strings_Contains s u.
Proof.
  intros (a & b & ->) (c & d & ->).
  exists (a +:+ c), (d +:+ b).
  now rewrite !append_assoc.
Qed.

Lemma log_record_Contains (header text : string) :
  strings_Contains (log_record header text) text.
Proof.
  destruct (log_record_shape header text) as (tail & ->).
  apply strings_Contains_middle.
Qed.

(** The literal each method puts before the message is the bracketed
    tag [LogLevel.String] gives for its severity. *)
Lemma bracket_tag_no_verb (op : EmitOp) : no_verb (bracket_tag (severity op)) = true.
Proof. now destruct op. Qed.

Lemma Sprintf_tagged (op : EmitOp) (msg : string) (args : list any) :
  fmt_Sprintf (bracket_tag (severity op) +:+ msg) args
  = bracket_tag (severity op) +:+ fmt_Sprintf msg args.
Proof. apply fmt_Sprintf_literal, bracket_tag_no_verb. Qed.

Lemma bracket_tag_Contains (s : LogLevel) (rest : string) :
  strings_Contains (bracket_tag s +:+ rest) ("[" +:+ LogLevel_String s +:+ "]").
Proof.
  exists "", (" " +:+ rest). unfold bracket_tag.
  now rewrite !append_assoc.
Qed.

(** ** Running the methods *)

Lemma load_at {A : Type} (heap : World -> gmap positive A) (a : addr) (v : A) (w : World) :
  heap w !! a = Some v -> load heap (Some a) w = (Done v, w).
Proof. intros H. unfold load. now rewrite H. Qed.

Lemma bind_Done {A B : Type} (m : Go A) (k : A -> Go B) (w w' : World) (a : A) :
  m w = (Done a, w') -> (m ≫= k) w = k a w'.
Proof. intros H. unfold mbind, Go_bind. now rewrite H. Qed.

Ltac run_go :=
  unfold log_Logger_Fatalf, log_Logger_Printf, log_Logger_Output, through_sink,
    load, time_Now, io_Writer_Write, os_Exit, panic, mbind, Go_bind, mret, Go_ret,
    option_bind, here;
  simpl.

(** An emit of a [DefaultLogger] found at [a]: the filter, then the sink. *)
Lemma DefaultLogger_emit_run (op : EmitOp) (a : addr) (this : DefaultLogger)
    (msg : string) (args : list any) (w : World) :
  w_DefaultLoggers w !! a = Some this ->
  DefaultLogger_emit op (Some a) msg args w =
    if negb (dl_enabled this) || (dl_level this >? severity op) then (Done tt, w)
    else through_sink (dl_logger this) (DefaultLogger_line op) op msg args (after_emit op) w.
Proof.
  intros Hthis.
  destruct op; simpl;
    unfold DefaultLogger_Debug, DefaultLogger_Info, DefaultLogger_Warn,
      DefaultLogger_Error, DefaultLogger_Fatal;
    rewrite (bind_Done _ _ _ _ _ (load_at w_DefaultLoggers a this w Hthis));
    (destruct (negb (dl_enabled this) || _); [reflexivity |]);
    run_go;
    destruct (dl_logger this) as [b|]; simpl; try reflexivity;
    destruct (w_logs w !! b); reflexivity.
Qed.

(** An emit of a [StdLogger] found at [a]: the flag, then the sink. *)
Lemma StdLogger_emit_run (op : EmitOp) (a : addr) (this : StdLogger)
    (msg : string) (args : list any) (w : World) :
  w_StdLoggers w !! a = Some this ->
  StdLogger_emit op (Some a) msg args w =
    if negb (sl_enabled this) then (Done tt, w)
    else through_sink (sl_logger this) (StdLogger_line op) op msg args (after_emit op) w.
Proof.
  intros Hthis.
  destruct op; simpl;
    unfold StdLogger_Debug, StdLogger_Info, StdLogger_Warn,
      StdLogger_Error, StdLogger_Fatal;
    rewrite (bind_Done _ _ _ _ _ (load_at w_StdLoggers a this w Hthis));
    (destruct (negb (sl_enabled this)); [reflexivity |]);
    run_go;
    destruct (sl_logger this) as [b|]; simpl; try reflexivity;
    destruct (w_logs w !! b); reflexivity.
Qed.

(** A receiver that is [nil], or points at nothing, panics before anything else. *)
Lemma DefaultLogger_emit_stray (op : EmitOp) (l : ptr) (msg : string)
    (args : list any) (w : World) :
  l ≫= (w_DefaultLoggers w !!.) = None ->
  DefaultLogger_emit op l msg args w = (Panic nil_dereference, w).
Proof.
  intros H.
  destruct op; simpl;
    unfold DefaultLogger_Debug, DefaultLogger_Info, DefaultLogger_Warn,
      DefaultLogger_Error, DefaultLogger_Fatal;
    run_go; destruct l as [a|]; simpl in *; try reflexivity; now rewrite H.
Qed.

Lemma StdLogger_emit_stray (op : EmitOp) (l : ptr) (msg : string)
    (args : list any) (w : World) :
  l ≫= (w_StdLoggers w !!.) = None ->
  StdLogger_emit op l msg args w = (Panic nil_dereference, w).
Proof.
  intros H.
  destruct op; simpl;
    unfold StdLogger_Debug, StdLogger_Info, StdLogger_Warn,
      StdLogger_Error, StdLogger_Fatal;
    run_go; destruct l as [a|]; simpl in *; try reflexivity; now rewrite H.
Qed.

Lemma NoOpLogger_emit_run (op : EmitOp) (l : ptr) (msg : string)
    (args : list any) (w : World) :
  NoOpLogger_emit op l msg args w = (Done tt, w).
Proof. now destruct op. Qed.

(** What reaching a sink that is there does to the world. *)
Lemma through_sink_at (b : addr) (lg : log_Logger) (line : Z) (op : EmitOp)
    (msg : string) (args : list any) (after : Outcome unit) (w : World) :
  w_logs w !! b = Some lg ->
  through_sink (Some b) line op msg args after w =
    (after, World_write (lg_out lg) (emitted_line lg (w_now w) line op msg args) w).
Proof.
  intros H. unfold through_sink, emitted_line. simpl. rewrite H.
  now rewrite Sprintf_tagged.
Qed.

Lemma emitted_line_shows (lg : log_Logger) (now line : Z) (op : EmitOp)
    (msg : string) (args : list any) (w : World) :
  writes_one_line w
    (World_write (lg_out lg) (emitted_line lg now line op msg args) w)
    ("[" +:+ LogLevel_String (severity op) +:+ "]") (fmt_Sprintf msg args).
Proof.
  exists (lg_out lg), (emitted_line lg now line op msg args).
  unfold emitted_line.
  split; [reflexivity |]. split; [apply log_record_ends |].
  split.
  - eapply strings_Contains_trans; [apply log_record_Contains |].
    apply bracket_tag_Contains.
  - eapply strings_Contains_trans; [apply log_record_Contains |].
    exists (bracket_tag (severity op)), "". now rewrite append_empty_r.
Qed.

Lemma through_sink_same_objects (sink : ptr) (line : Z) (op : EmitOp)
    (msg : string) (args : list any) (after : Outcome unit) (w : World) :
  same_objects w (snd (through_sink sink line op msg args after w)).
Proof.
  unfold through_sink.
  destruct (sink ≫= (w_logs w !!.)); simpl; now repeat split.
Qed.

Lemma World_write_grows (dst : io_Writer) (line : string) (w : World) :
  World_write dst line w <> w.
Proof.
  intros H. apply (f_equal w_out) in H. simpl in H.
  apply (f_equal length) in H. rewrite length_app in H. simpl in H. lia.
Qed.

(** ** Construction *)

Lemma fresh_unused {A : Type} (heap : gmap positive A) :
  heap !! fresh (dom heap) = None.
Proof. apply not_elem_of_dom, is_fresh. Qed.

(** [NewDefaultLogger] allocates a [log.Logger] on standard output and
    a [DefaultLogger] that points at it, both at unused addresses. *)
Lemma NewDefaultLogger_run (level : LogLevel) (prefix : string) (w : World) :
  let b := fresh (dom (w_logs w)) in
  let a := fresh (dom (w_DefaultLoggers w)) in
  NewDefaultLogger level prefix w =
    (Done (Some a),
     World_alloc_DefaultLogger a
       {| dl_logger := Some b; dl_enabled := true; dl_level := level |}
       (World_alloc_log b
          (mk_log_Logger os_Stdout prefix (Z.lor log_LstdFlags log_Lshortfile)) w)).
Proof. reflexivity. Qed.

Lemma NewLogger_nil_run (config : LogConfig) (w : World) :
  cfg_Enable config = true ->
  cfg_Logger config = Logger_nil ->
  NewLogger config w =
    (Done (Logger_DefaultLogger (Some (fresh (dom (w_DefaultLoggers w))))),
     snd (NewDefaultLogger (cfg_Level config) (cfg_Prefix config) w)).
Proof. intros He Hl. unfold NewLogger. rewrite He, Hl. reflexivity. Qed.

(** C1: [NewLogger] decides in a fixed order. With [Enable] false it
    returns a [NoOpLogger] whatever the other fields hold, a supplied
    [Logger] included; otherwise a supplied non-nil [Logger] is returned
    as it is, the same interface value and no new object in any heap;
    otherwise a [DefaultLogger] is allocated with the level of the config
    and a [log.Logger] carrying its prefix. *)
Theorem NewLogger_decision_order (config : LogConfig) (w : World) :
  (cfg_Enable config = false ->
     NewLogger config w = (Done (Logger_NoOpLogger (Some runtime_zerobase)), w))
  /\ (cfg_Enable config = true -> cfg_Logger config <> Logger_nil ->
     NewLogger config w = (Done (cfg_Logger config), w))
  /\ (cfg_Enable config = true -> cfg_Logger config = Logger_nil ->
     exists (a b : addr) (w' : World),
       NewLogger config w = (Done (Logger_DefaultLogger (Some a)), w') /\
       w_DefaultLoggers w !! a = None /\
       w_logs w !! b = None /\
       w_DefaultLoggers w' =
         <[a := {| dl_logger := Some b; dl_enabled := true;
                   dl_level := cfg_Level config |}]> (w_DefaultLoggers w) /\
       w_logs w' =
         <[b := {| lg_out := os_Stdout; lg_prefix := cfg_Prefix config;
                   lg_flag := Z.lor log_LstdFlags log_Lshortfile |}]> (w_logs w) /\
       w_StdLoggers w' = w_StdLoggers w /\
       w_out w' = w_out w).
Proof.
  split; [| split].
  - intros He. unfold NewLogger. now rewrite He.
  - intros He Hl. unfold NewLogger. rewrite He. simpl.
    destruct (cfg_Logger config); [contradiction | reflexivity ..].
  - intros He Hl.
    exists (fresh (dom (w_DefaultLoggers w))), (fresh (dom (w_logs w))).
    eexists. split; [apply (NewLogger_nil_run config w He Hl) |].
    rewrite NewDefaultLogger_run. simpl.
    repeat split; apply fresh_unused.
Qed.

(** C3: with [Enable] false the logger the factory returns reports
    [LogLevelOff] and each of its five emit methods returns without a
    write, in whatever world it is called, whatever [Level], [Prefix] and
    supplied [Logger] the config holds. *)
Theorem NewLogger_disabled_silent (config : LogConfig) (w : World) :
  cfg_Enable config = false ->
  exists lgr : Logger,
    NewLogger config w = (Done lgr, w) /\
    (forall w1 : World, Logger_LogMode lgr w1 = (Done LogLevelOff, w1)) /\
    (forall (op : EmitOp) (msg : string) (args : list any) (w1 : World),
       Logger_emit lgr op msg args w1 = (Done tt, w1)).
Proof.
  intros He. exists (Logger_NoOpLogger (Some runtime_zerobase)).
  split; [unfold NewLogger; now rewrite He |].
  split; [reflexivity |].
  intros op msg args w1. apply NoOpLogger_emit_run.
Qed.

Lemma DefaultLogger_LogMode_run (a : addr) (this : DefaultLogger) (w : World) :
  w_DefaultLoggers w !! a = Some this ->
  DefaultLogger_LogMode (Some a) w =
    (Done (if negb (dl_enabled this) then LogLevelOff else dl_level this), w).
Proof.
  intros H. unfold DefaultLogger_LogMode.
  rewrite (bind_Done _ _ _ _ _ (load_at w_DefaultLoggers a this w H)).
  now destruct (dl_enabled this).
Qed.

Lemma StdLogger_LogMode_run (a : addr) (this : StdLogger) (w : World) :
  w_StdLoggers w !! a = Some this ->
  StdLogger_LogMode (Some a) w =
    (Done (if negb (sl_enabled this) then LogLevelOff else LogLevelDebug), w).
Proof.
  intros H. unfold StdLogger_LogMode.
  rewrite (bind_Done _ _ _ _ _ (load_at w_StdLoggers a this w H)).
  now destruct (sl_enabled this).
Qed.

(** C4: with [Enable] true and no [Logger] supplied the factory returns
    a [DefaultLogger] whose [LogMode] is the [Level] of the config, as it
    is, in the world the factory leaves and in every world where that
    object is still what the factory made it. *)
Theorem NewLogger_default_LogMode (config : LogConfig) (w : World) :
  cfg_Enable config = true ->
  cfg_Logger config = Logger_nil ->
  exists (a : addr) (w' : World),
    NewLogger config w = (Done (Logger_DefaultLogger (Some a)), w') /\
    forall w1 : World,
      w_DefaultLoggers w1 !! a = w_DefaultLoggers w' !! a ->
      Logger_LogMode (Logger_DefaultLogger (Some a)) w1 = (Done (cfg_Level config), w1).
Proof.
  intros He Hl. eexists _, _.
  split; [apply (NewLogger_nil_run config w He Hl) |].
  intros w1 Hsame. simpl.
  rewrite NewDefaultLogger_run in Hsame. simpl in Hsame.
  rewrite lookup_insert_eq in Hsame.
  now rewrite (DefaultLogger_LogMode_run _ _ _ Hsame).
Qed.

(** ** The level floor of DefaultLogger *)

Lemma filter_passes (enabled : bool) (level s : LogLevel) :
  negb enabled || (level >? s) = false <-> enabled = true /\ level <= s.
Proof.
  destruct enabled; simpl; [| intuition discriminate].
  rewrite Z.gtb_ltb, Z.ltb_ge. intuition.
Qed.

Lemma filter_drops (enabled : bool) (level s : LogLevel) :
  negb enabled || (level >? s) = true <-> enabled = false \/ s < level.
Proof.
  destruct enabled; simpl; [| intuition].
  rewrite Z.gtb_ltb, Z.ltb_lt. intuition discriminate.
Qed.

(** C2: a [DefaultLogger] with a [log.Logger] behind it, asked to emit
    at severity S with level L. When enabled, it writes one line showing
    the bracketed tag of S and the formatted message if and only if
    L <= S; that line is the one record added, at the destination of its
    [log.Logger]. When S < L, or when it is not enabled, the world after
    the call is the world before it. *)
Theorem DefaultLogger_emit_level_floor (a b : addr) (this : DefaultLogger)
    (lg : log_Logger) (op : EmitOp) (msg : string) (args : list any) (w : World) :
  w_DefaultLoggers w !! a = Some this ->
  dl_logger this = Some b ->
  w_logs w !! b = Some lg ->
  let w' := snd (DefaultLogger_emit op (Some a) msg args w) in
  (dl_enabled this = true ->
     (writes_one_line w w'
        ("[" +:+ LogLevel_String (severity op) +:+ "]") (fmt_Sprintf msg args)
      <-> dl_level this <= severity op))
  /\ (dl_enabled this = true -> dl_level this <= severity op ->
     w' = World_write (lg_out lg)
            (emitted_line lg (w_now w) (DefaultLogger_line op) op msg args) w)
  /\ (dl_enabled this = false \/ severity op < dl_level this -> w' = w).
Proof.
  intros Hthis Hsink Hlg w'. subst w'.
  rewrite (DefaultLogger_emit_run op a this msg args w Hthis), Hsink.
  rewrite (through_sink_at b lg _ _ _ _ _ w Hlg).
  destruct (negb (dl_enabled this) || (dl_level this >? severity op)) eqn:F; simpl.
  - apply filter_drops in F.
    split; [| split].
    + intros He. split.
      * intros (dst & line & Hw & _). symmetry in Hw.
        now apply World_write_grows in Hw.
      * intros Hle. destruct F as [F | F]; [congruence | lia].
    + intros He Hle. destruct F as [F | F]; [congruence | lia].
    + reflexivity.
  - apply filter_passes in F. destruct F as [He Hle].
    split; [| split].
    + intros _. split; [intros _; exact Hle |].
      intros _. apply emitted_line_shows.
    + reflexivity.
    + intros [F | F]; [congruence | lia].
Qed.

(** C6: [Fatal] of a [DefaultLogger] with a [log.Logger] behind it ends
    the process with a status other than zero if and only if the logger
    is enabled and its level is at most [LogLevelFatal]; the exit status
    is 1 and at the exit the rendered line is the last record written.
    When the filter does not pass, [Fatal] returns and the world is
    untouched. *)
Theorem DefaultLogger_Fatal_exits_after_write (a b : addr) (this : DefaultLogger)
    (lg : log_Logger) (msg : string) (args : list any) (w : World) :
  w_DefaultLoggers w !! a = Some this ->
  dl_logger this = Some b ->
  w_logs w !! b = Some lg ->
  let r := DefaultLogger_Fatal (Some a) msg args w in
  (terminates_nonzero (fst r)
     <-> dl_enabled this = true /\ dl_level this <= LogLevelFatal)
  /\ (dl_enabled this = true /\ dl_level this <= LogLevelFatal ->
     r = (Exit 1,
          World_write (lg_out lg) (emitted_line lg (w_now w) 119 OpFatal msg args) w)
     /\ writes_one_line w (snd r) "[FATAL]" (fmt_Sprintf msg args))
  /\ (~ (dl_enabled this = true /\ dl_level this <= LogLevelFatal) ->
     r = (Done tt, w)).
Proof.
  intros Hthis Hsink Hlg r. subst r.
  change (DefaultLogger_Fatal (Some a) msg args w)
    with (DefaultLogger_emit OpFatal (Some a) msg args w).
  rewrite (DefaultLogger_emit_run OpFatal a this msg args w Hthis), Hsink.
  rewrite (through_sink_at b lg _ _ _ _ _ w Hlg).
  change (severity OpFatal) with LogLevelFatal.
  destruct (negb (dl_enabled this) || (dl_level this >? LogLevelFatal)) eqn:F; simpl.
  - apply filter_drops in F.
    assert (Hno : ~ (dl_enabled this = true /\ dl_level this <= LogLevelFatal)).
    { intros [He Hle]. destruct F as [F | F]; [congruence | lia]. }
    split; [| split].
    + split; [| intros H; now apply Hno in H].
      intros (code & Hcode & _). discriminate.
    + intros H. now apply Hno in H.
    + reflexivity.
  - apply filter_passes in F.
    split; [| split].
    + split; [intros _; exact F |].
      intros _. exists 1. now split.
    + intros _. split; [reflexivity |].
      apply (emitted_line_shows lg (w_now w) 119 OpFatal msg args w).
    + intros H. now apply H in F.
Qed.

(** ** StdLogger *)

(** C5: a [StdLogger] with a [log.Logger] behind it looks at its
    [enabled] flag only. Enabled, each of the five emit methods writes its
    line, the bracketed tag and the formatted message in it, whatever the
    severity ([Fatal] then exits with status 1, the others return);
    disabled, each returns with the world untouched. [LogMode] is
    [LogLevelOff] when disabled and [LogLevelDebug] when enabled. *)
Theorem StdLogger_gated_by_enabled_only (a b : addr) (this : StdLogger)
    (lg : log_Logger) (w : World) :
  w_StdLoggers w !! a = Some this ->
  sl_logger this = Some b ->
  w_logs w !! b = Some lg ->
  (sl_enabled this = true ->
     forall (op : EmitOp) (msg : string) (args : list any),
       StdLogger_emit op (Some a) msg args w =
         (after_emit op,
          World_write (lg_out lg)
            (emitted_line lg (w_now w) (StdLogger_line op) op msg args) w)
       /\ writes_one_line w (snd (StdLogger_emit op (Some a) msg args w))
            ("[" +:+ LogLevel_String (severity op) +:+ "]") (fmt_Sprintf msg args))
  /\ (sl_enabled this = false ->
     forall (op : EmitOp) (msg : string) (args : list any),
       StdLogger_emit op (Some a) msg args w = (Done tt, w))
  /\ StdLogger_LogMode (Some a) w =
       (Done (if sl_enabled this then LogLevelDebug else LogLevelOff), w).
Proof.
  intros Hthis Hsink Hlg.
  split; [| split].
  - intros He op msg args.
    rewrite (StdLogger_emit_run op a this msg args w Hthis), He, Hsink. simpl.
    rewrite (through_sink_at b lg _ _ _ _ _ w Hlg).
    split; [reflexivity | apply emitted_line_shows].
  - intros He op msg args.
    now rewrite (StdLogger_emit_run op a this msg args w Hthis), He.
  - rewrite (StdLogger_LogMode_run a this w Hthis).
    now destruct (sl_enabled this).
Qed.

(** C9: [Fatal] of a disabled [StdLogger] returns; nothing is written
    and the process goes on, as with [Debug], [Info], [Warn] and [Error]
    of the same logger. No [log.Logger] need be behind it. *)
Theorem StdLogger_disabled_Fatal_returns (a : addr) (this : StdLogger)
    (msg : string) (args : list any) (w : World) :
  w_StdLoggers w !! a = Some this ->
  sl_enabled this = false ->
  StdLogger_Fatal (Some a) msg args w = (Done tt, w)
  /\ forall op : EmitOp,
       StdLogger_emit op (Some a) msg args w = StdLogger_Fatal (Some a) msg args w.
Proof.
  intros Hthis He.
  assert (Hall : forall op, StdLogger_emit op (Some a) msg args w = (Done tt, w)).
  { intros op. now rewrite (StdLogger_emit_run op a this msg args w Hthis), He. }
  split; [apply (Hall OpFatal) |].
  intros op. rewrite (Hall op). symmetry. apply (Hall OpFatal).
Qed.

(** ** Runs of emit calls *)

Lemma Logger_emit_all_cons (i : Logger) (c : Call) (rest : list Call) (w : World) :
  Logger_emit_all i (c :: rest) w =
    match Logger_emit i (call_op c) (call_msg c) (call_args c) w with
    | (Done _, w1) => Logger_emit_all i rest w1
    | (Exit code, w1) => (Exit code, w1)
    | (Panic reason, w1) => (Panic reason, w1)
    end.
Proof. reflexivity. Qed.

Lemma same_objects_refl (w : World) : same_objects w w.
Proof. now repeat split. Qed.

Lemma same_objects_trans (w1 w2 w3 : World) :
  same_objects w1 w2 -> same_objects w2 w3 -> same_objects w1 w3.
Proof.
  intros (H1 & H2 & H3) (K1 & K2 & K3).
  repeat split; congruence.
Qed.

Lemma DefaultLogger_emit_same_objects (op : EmitOp) (l : ptr) (msg : string)
    (args : list any) (w : World) :
  same_objects w (snd (DefaultLogger_emit op l msg args w)).
Proof.
  destruct (l ≫= (w_DefaultLoggers w !!.)) as [this|] eqn:E.
  - destruct l as [a|]; [| discriminate]. simpl in E.
    rewrite (DefaultLogger_emit_run op a this msg args w E).
    destruct (negb (dl_enabled this) || _);
      [apply same_objects_refl | apply through_sink_same_objects].
  - rewrite (DefaultLogger_emit_stray op l msg args w E). apply same_objects_refl.
Qed.

Lemma StdLogger_emit_same_objects (op : EmitOp) (l : ptr) (msg : string)
    (args : list any) (w : World) :
  same_objects w (snd (StdLogger_emit op l msg args w)).
Proof.
  destruct (l ≫= (w_StdLoggers w !!.)) as [this|] eqn:E.
  - destruct l as [a|]; [| discriminate]. simpl in E.
    rewrite (StdLogger_emit_run op a this msg args w E).
    destruct (negb (sl_enabled this));
      [apply same_objects_refl | apply through_sink_same_objects].
  - rewrite (StdLogger_emit_stray op l msg args w E). apply same_objects_refl.
Qed.

Lemma Logger_emit_same_objects (i : Logger) (op : EmitOp) (msg : string)
    (args : list any) (w : World) :
  of_this_package i ->
  same_objects w (snd (Logger_emit i op msg args w)).
Proof.
  destruct i as [|p|p|p|type p]; simpl; intros Hi.
  - apply same_objects_refl.
  - rewrite NoOpLogger_emit_run. apply same_objects_refl.
  - apply DefaultLogger_emit_same_objects.
  - apply StdLogger_emit_same_objects.
  - contradiction.
Qed.

Lemma Logger_emit_all_same_objects (i : Logger) (calls : list Call) (w : World) :
  of_this_package i ->
  same_objects w (snd (Logger_emit_all i calls w)).
Proof.
  intros Hi. revert w.
  induction calls as [|c rest IH]; intros w; [apply same_objects_refl |].
  rewrite Logger_emit_all_cons.
  pose proof (Logger_emit_same_objects i (call_op c) (call_msg c) (call_args c) w Hi) as H1.
  destruct (Logger_emit i (call_op c) (call_msg c) (call_args c) w) as [[u|code|reason] w1];
    simpl in *; [| exact H1 ..].
  eapply same_objects_trans; [exact H1 | apply IH].
Qed.

Lemma Logger_LogMode_same_world (i : Logger) (w : World) :
  of_this_package i ->
  snd (Logger_LogMode i w) = w.
Proof.
  destruct i as [|p|p|p|type p]; simpl; intros Hi; try reflexivity; try contradiction.
  - unfold DefaultLogger_LogMode, load, mbind, Go_bind.
    destruct p as [a|]; [| reflexivity].
    destruct (w_DefaultLoggers w !! a) as [this|]; [| reflexivity].
    now destruct (negb (dl_enabled this)).
  - unfold StdLogger_LogMode, load, mbind, Go_bind.
    destruct p as [a|]; [| reflexivity].
    destruct (w_StdLoggers w !! a) as [this|]; [| reflexivity].
    now destruct (negb (sl_enabled this)).
Qed.

(** C10: no method of the contract changes a logger. For a receiver of
    type [DefaultLogger], [NoOpLogger] or [StdLogger], whatever it points
    at, each emit method, every run of emit calls, and [LogMode] leave
    all three heaps as they were: the [enabled] flag, the level and the
    [logger] field of every logger, and the [log.Logger] objects those
    fields point at. [LogMode], and every method of [NoOpLogger], leave
    the whole world as it was. *)
Theorem methods_leave_loggers_unchanged (l : ptr) (w : World) :
  let built_in := [Logger_DefaultLogger l; Logger_NoOpLogger l; Logger_StdLogger l] in
  Forall (fun i : Logger =>
    (forall (op : EmitOp) (msg : string) (args : list any),
       same_objects w (snd (Logger_emit i op msg args w)))
    /\ (forall calls : list Call, same_objects w (snd (Logger_emit_all i calls w)))
    /\ snd (Logger_LogMode i w) = w) built_in
  /\ (forall (op : EmitOp) (msg : string) (args : list any),
       Logger_emit (Logger_NoOpLogger l) op msg args w = (Done tt, w)).
Proof.
  split.
  - repeat constructor; intros;
      first [ apply Logger_emit_same_objects
            | apply Logger_emit_all_same_objects
            | apply Logger_LogMode_same_world ];
      exact I.
  - intros op msg args. apply NoOpLogger_emit_run.
Qed.

(** ** Level Off *)

Lemma DefaultLogger_Off_emit (a : addr) (this : DefaultLogger) (op : EmitOp)
    (msg : string) (args : list any) (w : World) :
  w_DefaultLoggers w !! a = Some this ->
  dl_level this = LogLevelOff ->
  DefaultLogger_emit op (Some a) msg args w = (Done tt, w).
Proof.
  intros Hthis Hoff.
  rewrite (DefaultLogger_emit_run op a this msg args w Hthis), Hoff.
  now destruct op, (dl_enabled this).
Qed.

Lemma DefaultLogger_Off_emit_all (a : addr) (this : DefaultLogger)
    (calls : list Call) (w : World) :
  w_DefaultLoggers w !! a = Some this ->
  dl_level this = LogLevelOff ->
  Logger_emit_all (Logger_DefaultLogger (Some a)) calls w = (Done tt, w).
Proof.
  intros Hthis Hoff.
  induction calls as [|c rest IH]; [reflexivity |].
  rewrite Logger_emit_all_cons. simpl.
  now rewrite (DefaultLogger_Off_emit a this _ _ _ w Hthis Hoff).
Qed.

(** C7: with [Enable] true, [Level] [LogLevelOff] and no [Logger]
    supplied, the factory still allocates a [DefaultLogger], enabled and
    at level Off; every emit call on it, at any of the five severities,
    and every run of such calls, returns with the world untouched:
    nothing is written and the process is not terminated. *)
Theorem NewLogger_level_Off_quiet (config : LogConfig) (w : World) :
  cfg_Enable config = true ->
  cfg_Level config = LogLevelOff ->
  cfg_Logger config = Logger_nil ->
  exists (a : addr) (this : DefaultLogger) (w' : World),
    NewLogger config w = (Done (Logger_DefaultLogger (Some a)), w') /\
    w_DefaultLoggers w' !! a = Some this /\
    dl_enabled this = true /\
    dl_level this = LogLevelOff /\
    (forall (op : EmitOp) (msg : string) (args : list any),
       Logger_emit (Logger_DefaultLogger (Some a)) op msg args w' = (Done tt, w')) /\
    (forall calls : list Call,
       Logger_emit_all (Logger_DefaultLogger (Some a)) calls w' = (Done tt, w')).
Proof.
  intros He Hoff Hl.
  eexists _, _, _.
  split; [apply (NewLogger_nil_run config w He Hl) |].
  rewrite NewDefaultLogger_run. simpl.
  split; [apply lookup_insert_eq |].
  split; [reflexivity |]. split; [exact Hoff |].
  split.
  - intros op msg args. eapply DefaultLogger_Off_emit; [apply lookup_insert_eq | exact Hoff].
  - intros calls. eapply DefaultLogger_Off_emit_all; [apply lookup_insert_eq | exact Hoff].
Qed.

(** ** The sink of a StdLogger *)

Lemma StdLogger_emit_no_panic (a b : addr) (this : StdLogger) (lg : log_Logger)
    (op : EmitOp) (msg : string) (args : list any) (w : World) :
  w_StdLoggers w !! a = Some this ->
  sl_logger this = Some b ->
  w_logs w !! b = Some lg ->
  ~ panics (fst (StdLogger_emit op (Some a) msg args w)).
Proof.
  intros Hthis Hsink Hlg (reason & H).
  rewrite (StdLogger_emit_run op a this msg args w Hthis), Hsink in H.
  unfold through_sink in H. simpl in H. rewrite Hlg in H.
  destruct (negb (sl_enabled this)), op; discriminate.
Qed.

Lemma StdLogger_emit_all_no_panic (a b : addr) (this : StdLogger) (lg : log_Logger)
    (calls : list Call) (w : World) :
  w_StdLoggers w !! a = Some this ->
  sl_logger this = Some b ->
  w_logs w !! b = Some lg ->
  ~ panics (fst (Logger_emit_all (Logger_StdLogger (Some a)) calls w)).
Proof.
  intros Hthis Hsink. revert w Hthis.
  induction calls as [|c rest IH]; intros w Hthis Hlg.
  - intros (reason & H). discriminate.
  - rewrite Logger_emit_all_cons. simpl.
    pose proof (StdLogger_emit_no_panic a b this lg (call_op c) (call_msg c)
                  (call_args c) w Hthis Hsink Hlg) as Hone.
    pose proof (StdLogger_emit_same_objects (call_op c) (Some a) (call_msg c)
                  (call_args c) w) as (Hlogs & _ & Hstd).
    destruct (StdLogger_emit (call_op c) (Some a) (call_msg c) (call_args c) w)
      as [[u|code|reason] w1]; simpl in *.
    + apply IH; [now rewrite Hstd | now rewrite Hlogs].
    + intros (reason & H). discriminate.
    + exfalso. apply Hone. now exists reason.
Qed.

(** C8: [NewStdLogger] never stores [nil]. Given [nil] it stores the
    package-level logger of [log], given a logger it stores that one; the
    [StdLogger] it allocates has a [log.Logger] behind it, and no emit
    call on it, alone or in a run, panics on a [nil] logger. *)
Theorem NewStdLogger_sink_never_nil (logger : ptr) (enabled : bool) (w : World) :
  is_Some (w_logs w !! log_std) ->
  (forall b : addr, logger = Some b -> is_Some (w_logs w !! b)) ->
  exists (a sink : addr) (w' : World),
    NewStdLogger logger enabled w = (Done (Some a), w') /\
    w_StdLoggers w !! a = None /\
    w_StdLoggers w' !! a = Some {| sl_logger := Some sink; sl_enabled := enabled |} /\
    sink = default log_std logger /\
    is_Some (w_logs w' !! sink) /\
    (forall (op : EmitOp) (msg : string) (args : list any),
       ~ panics (fst (StdLogger_emit op (Some a) msg args w'))) /\
    (forall calls : list Call,
       ~ panics (fst (Logger_emit_all (Logger_StdLogger (Some a)) calls w'))).
Proof.
  intros Hstd Hvalid.
  set (sink := default log_std logger).
  assert (Hsink : is_Some (w_logs w !! sink)).
  { subst sink. destruct logger as [b|]; simpl; [now apply Hvalid | exact Hstd]. }
  destruct Hsink as [lg Hlg].
  set (a := fresh (dom (w_StdLoggers w))).
  set (this := {| sl_logger := Some sink; sl_enabled := enabled |}).
  exists a, sink, (World_alloc_StdLogger a this w).
  assert (Hat : w_StdLoggers (World_alloc_StdLogger a this w) !! a = Some this)
    by apply lookup_insert_eq.
  split; [now destruct logger |].
  split; [apply fresh_unused |].
  split; [exact Hat |]. split; [reflexivity |].
  split; [now exists lg |].
  split.
  - intros op msg args.
    now apply (StdLogger_emit_no_panic a sink this lg).
  - intros calls.
    now apply (StdLogger_emit_all_no_panic a sink this lg).
Qed.

(** ** Further properties of the code *)

(** *** LogLevel.String *)

Lemma LogLevel_named (l : LogLevel) :
  LogLevelDebug <= l <= LogLevelOff ->
  l = 0 \/ l = 1 \/ l = 2 \/ l = 3 \/ l = 4 \/ l = 5.
Proof. unfold LogLevelDebug, LogLevelOff. lia. Qed.

Lemma LogLevel_String_outside (l : LogLevel) :
  l < LogLevelDebug \/ LogLevelOff < l -> LogLevel_String l = "UNKNOWN".
Proof.
  unfold LogLevelDebug, LogLevelOff.
  destruct l as [|p|p]; intros H; [lia | | reflexivity].
  destruct p as [[[p|p|]|[p|p|]|]|[[p|p|]|[p|p|]|]|]; try reflexivity; lia.
Qed.

(** X1: [String] gives "UNKNOWN" exactly for the integers outside
    Debug..Off, and the six named levels have six different texts: from
    the text of a named level the level can be told. *)
Theorem LogLevel_String_tells_level (l1 l2 : LogLevel) :
  (LogLevel_String l1 = "UNKNOWN" <-> l1 < LogLevelDebug \/ LogLevelOff < l1)
  /\ (LogLevelDebug <= l1 <= LogLevelOff ->
      LogLevel_String l1 = LogLevel_String l2 -> l1 = l2).
Proof.
  split.
  - split; [| apply LogLevel_String_outside].
    intros H.
    destruct (Z_lt_le_dec l1 LogLevelDebug) as [|Hlo]; [now left |].
    destruct (Z_lt_le_dec LogLevelOff l1) as [|Hhi]; [now right |].
    destruct (LogLevel_named l1 (conj Hlo Hhi)) as [-> | [-> | [-> | [-> | [-> | ->]]]]];
      discriminate H.
  - intros Hin Heq.
    destruct (Z_lt_le_dec l2 LogLevelDebug) as [Hlo2 | Hlo2];
      [| destruct (Z_lt_le_dec LogLevelOff l2) as [Hhi2 | Hhi2]].
    + rewrite (LogLevel_String_outside l2 (or_introl Hlo2)) in Heq.
      destruct (LogLevel_named l1 Hin) as [-> | [-> | [-> | [-> | [-> | ->]]]]];
        discriminate Heq.
    + rewrite (LogLevel_String_outside l2 (or_intror Hhi2)) in Heq.
      destruct (LogLevel_named l1 Hin) as [-> | [-> | [-> | [-> | [-> | ->]]]]];
        discriminate Heq.
    + destruct (LogLevel_named l1 Hin) as [-> | [-> | [-> | [-> | [-> | ->]]]]];
        destruct (LogLevel_named l2 (conj Hlo2 Hhi2))
          as [-> | [-> | [-> | [-> | [-> | ->]]]]];
        first [reflexivity | discriminate Heq].
Qed.

(** *** Termination of the process *)

Lemma through_sink_outcome (sink : ptr) (line : Z) (op : EmitOp) (msg : string)
    (args : list any) (after : Outcome unit) (w : World) :
  fst (through_sink sink line op msg args after w) = after
  \/ fst (through_sink sink line op msg args after w) = Panic nil_dereference.
Proof.
  unfold through_sink. destruct (sink ≫= (w_logs w !!.)); simpl; auto.
Qed.

Lemma after_emit_Exit (op : EmitOp) (code : Z) :
  after_emit op = Exit code -> op = OpFatal /\ code = 1.
Proof. destruct op; simpl; intros H; try discriminate H. now inversion H. Qed.

(** X2: of the methods of the three built-in loggers only [Fatal] can
    end the process, and then with status 1: whatever the receiver points
    at, [Debug], [Info], [Warn] and [Error] return or panic, and no method
    of [NoOpLogger] ends the process. *)
Theorem only_Fatal_ends_the_process (i : Logger) (op : EmitOp) (msg : string)
    (args : list any) (w : World) (code : Z) :
  of_this_package i ->
  fst (Logger_emit i op msg args w) = Exit code ->
  op = OpFatal /\ code = 1 /\ (forall p : ptr, i <> Logger_NoOpLogger p).
Proof.
  intros Hi H.
  destruct i as [|p|p|p|type p]; simpl in H; try contradiction.
  - discriminate H.
  - rewrite NoOpLogger_emit_run in H. discriminate H.
  - destruct (p ≫= (w_DefaultLoggers w !!.)) as [this|] eqn:E.
    + destruct p as [a|]; [| discriminate]. simpl in E.
      rewrite (DefaultLogger_emit_run op a this msg args w E) in H.
      destruct (negb (dl_enabled this) || _); [discriminate H |].
      destruct (through_sink_outcome (dl_logger this) (DefaultLogger_line op) op msg
                  args (after_emit op) w) as [K | K];
        rewrite K in H; [| discriminate H].
      apply after_emit_Exit in H. destruct H as [-> ->].
      repeat split. intros q. discriminate.
    + rewrite (DefaultLogger_emit_stray op p msg args w E) in H. discriminate H.
  - destruct (p ≫= (w_StdLoggers w !!.)) as [this|] eqn:E.
    + destruct p as [a|]; [| discriminate]. simpl in E.
      rewrite (StdLogger_emit_run op a this msg args w E) in H.
      destruct (negb (sl_enabled this)); [discriminate H |].
      destruct (through_sink_outcome (sl_logger this) (StdLogger_line op) op msg
                  args (after_emit op) w) as [K | K];
        rewrite K in H; [| discriminate H].
      apply after_emit_Exit in H. destruct H as [-> ->].
      repeat split. intros q. discriminate.
    + rewrite (StdLogger_emit_stray op p msg args w E) in H. discriminate H.
Qed.

(** *** The factory as a whole *)

(** X3: [NewLogger] always returns, and what it returns is never the
    [nil] interface. It writes nothing, and every object that was in a heap
    is still there unchanged: the heaps only grow, by at most one
    [DefaultLogger] and one [log.Logger]. *)
Theorem NewLogger_returns_non_nil (config : LogConfig) (w : World) :
  exists (l : Logger) (w' : World),
    NewLogger config w = (Done l, w') /\
    l <> Logger_nil /\
    w_out w' = w_out w /\
    w_logs w ⊆ w_logs w' /\
    w_DefaultLoggers w ⊆ w_DefaultLoggers w' /\
    w_StdLoggers w' = w_StdLoggers w /\
    (size (w_DefaultLoggers w') <= S (size (w_DefaultLoggers w)))%nat /\
    (size (w_logs w') <= S (size (w_logs w)))%nat.
Proof.
  assert (Hsame : forall l : Logger, l <> Logger_nil ->
            l <> Logger_nil /\ w_out w = w_out w /\ w_logs w ⊆ w_logs w /\
            w_DefaultLoggers w ⊆ w_DefaultLoggers w /\ w_StdLoggers w = w_StdLoggers w /\
            (size (w_DefaultLoggers w) <= S (size (w_DefaultLoggers w)))%nat /\
            (size (w_logs w) <= S (size (w_logs w)))%nat).
  { intros l Hl. repeat (split; [done |]). lia. }
  unfold NewLogger.
  destruct (cfg_Enable config); simpl.
  - destruct (cfg_Logger config) eqn:El;
      try (eexists _, w; split; [reflexivity | now apply Hsame]).
    eexists _, _. split; [reflexivity |]. simpl.
    split; [discriminate |]. split; [reflexivity |].
    split; [apply insert_subseteq, fresh_unused |].
    split; [apply insert_subseteq, fresh_unused |].
    split; [reflexivity |].
    rewrite !map_size_insert_None by apply fresh_unused. lia.
  - eexists _, w. split; [reflexivity | now apply Hsame].
Qed.

(** X4: two calls of [NewDefaultLogger] give two different loggers
    with two different [log.Logger]s behind them; after the second call
    the first logger still has its own level and its own prefix. *)
Theorem NewDefaultLogger_twice_distinct (level1 level2 : LogLevel)
    (prefix1 prefix2 : string) (w : World) :
  exists (a1 a2 b1 b2 : addr) (w2 : World),
    (p1 ← NewDefaultLogger level1 prefix1;
     p2 ← NewDefaultLogger level2 prefix2;
     mret (p1, p2)) w = (Done (Some a1, Some a2), w2) /\
    a1 <> a2 /\ b1 <> b2 /\
    w_DefaultLoggers w2 !! a1 =
      Some {| dl_logger := Some b1; dl_enabled := true; dl_level := level1 |} /\
    w_DefaultLoggers w2 !! a2 =
      Some {| dl_logger := Some b2; dl_enabled := true; dl_level := level2 |} /\
    w_logs w2 !! b1 =
      Some (mk_log_Logger os_Stdout prefix1 (Z.lor log_LstdFlags log_Lshortfile)) /\
    w_logs w2 !! b2 =
      Some (mk_log_Logger os_Stdout prefix2 (Z.lor log_LstdFlags log_Lshortfile)).
Proof.
  set (b1 := fresh (dom (w_logs w))).
  set (a1 := fresh (dom (w_DefaultLoggers w))).
  set (lg1 := mk_log_Logger os_Stdout prefix1 (Z.lor log_LstdFlags log_Lshortfile)).
  set (d1 := {| dl_logger := Some b1; dl_enabled := true; dl_level := level1 |}).
  set (b2 := fresh (dom (<[b1 := lg1]> (w_logs w)))).
  set (a2 := fresh (dom (<[a1 := d1]> (w_DefaultLoggers w)))).
  assert (Ha : a1 <> a2).
  { intros E. pose proof (fresh_unused (<[a1 := d1]> (w_DefaultLoggers w))) as F.
    fold a2 in F. rewrite <- E, lookup_insert_eq in F. discriminate F. }
  assert (Hb : b1 <> b2).
  { intros E. pose proof (fresh_unused (<[b1 := lg1]> (w_logs w))) as F.
    fold b2 in F. rewrite <- E, lookup_insert_eq in F. discriminate F. }
  exists a1, a2, b1, b2. eexists. split; [reflexivity |]. simpl.
  split; [exact Ha |]. split; [exact Hb |].
  fold b1 a1 lg1 d1. fold b2 a2.
  split; [rewrite lookup_insert_ne by (intros E; now apply Ha); apply lookup_insert_eq |].
  split; [apply lookup_insert_eq |].
  split; [rewrite lookup_insert_ne by (intros E; now apply Hb); apply lookup_insert_eq |].
  apply lookup_insert_eq.
Qed.

(** *** Nil receivers and nil sinks *)

(** X5: a [nil] pointer of a concrete type stored in the config is not
    the [nil] interface, so with [Enable] true the factory hands it back.
    On a [nil] [DefaultLogger] or [StdLogger] pointer every method then
    panics and nothing is written; on a [nil] [NoOpLogger] pointer every
    method works, since none of them reads the receiver. *)
Theorem typed_nil_Logger_passes_the_factory (config : LogConfig) (w : World) :
  cfg_Enable config = true ->
  (cfg_Logger config = Logger_DefaultLogger None
   \/ cfg_Logger config = Logger_StdLogger None ->
     NewLogger config w = (Done (cfg_Logger config), w) /\
     (forall (op : EmitOp) (msg : string) (args : list any) (w1 : World),
        Logger_emit (cfg_Logger config) op msg args w1 = (Panic nil_dereference, w1)) /\
     (forall w1 : World,
        Logger_LogMode (cfg_Logger config) w1 = (Panic nil_dereference, w1)))
  /\ (cfg_Logger config = Logger_NoOpLogger None ->
     NewLogger config w = (Done (cfg_Logger config), w) /\
     (forall (op : EmitOp) (msg : string) (args : list any) (w1 : World),
        Logger_emit (cfg_Logger config) op msg args w1 = (Done tt, w1)) /\
     (forall w1 : World,
        Logger_LogMode (cfg_Logger config) w1 = (Done LogLevelOff, w1))).
Proof.
  intros He. unfold NewLogger. rewrite He. simpl.
  split.
  - intros [-> | ->]; (split; [reflexivity |]); split.
    + intros op msg args w1. now apply DefaultLogger_emit_stray.
    + reflexivity.
    + intros op msg args w1. now apply StdLogger_emit_stray.
    + reflexivity.
  - intros ->. split; [reflexivity |]. split; [| reflexivity].
    intros op msg args w1. apply NoOpLogger_emit_run.
Qed.

(** X6: a [DefaultLogger] whose [logger] field is [nil], as a struct
    literal can make it. An emit panics exactly when the call passes the
    filter, and returns otherwise; in neither case is anything written,
    and [Fatal] does not reach [os.Exit]. *)
Theorem DefaultLogger_nil_sink (a : addr) (this : DefaultLogger) (op : EmitOp)
    (msg : string) (args : list any) (w : World) :
  w_DefaultLoggers w !! a = Some this ->
  dl_logger this = None ->
  let r := DefaultLogger_emit op (Some a) msg args w in
  snd r = w
  /\ (fst r = Panic nil_dereference
      <-> dl_enabled this = true /\ dl_level this <= severity op)
  /\ (fst r = Done tt
      <-> dl_enabled this = false \/ severity op < dl_level this).
Proof.
  intros Hthis Hsink r. subst r.
  rewrite (DefaultLogger_emit_run op a this msg args w Hthis), Hsink.
  unfold through_sink. simpl.
  destruct (negb (dl_enabled this) || (dl_level this >? severity op)) eqn:F; simpl.
  - apply filter_drops in F.
    split; [reflexivity |]. split.
    + split; [discriminate |].
      intros [He Hle]. destruct F as [F | F]; [congruence | lia].
    + split; [intros _; exact F | reflexivity].
  - apply filter_passes in F.
    split; [reflexivity |]. split.
    + split; [intros _; exact F | reflexivity].
    + split; [discriminate |].
      destruct F as [He Hle]. intros [F | F]; [congruence | lia].
Qed.

(** *** LogMode and the emit methods *)

Lemma severity_below_Off (op : EmitOp) : severity op < LogLevelOff.
Proof. destruct op; reflexivity. Qed.

Lemma severity_from_Debug (op : EmitOp) : LogLevelDebug <= severity op.
Proof. destruct op; discriminate. Qed.

Lemma severity_to_Fatal (op : EmitOp) : severity op <= LogLevelFatal.
Proof. destruct op; discriminate. Qed.

(** X7: [LogMode] tells what the emit methods do. For a built-in
    logger that is there, with its [log.Logger] if it has one, a call at
    severity S writes its line when [LogMode] is at most S, and returns
    with the world untouched when S is below [LogMode]; so a caller may
    skip building a message whose severity is below [LogMode]. *)
Theorem LogMode_agrees_with_emit (i : Logger) (op : EmitOp) (msg : string)
    (args : list any) (w : World) :
  Logger_ready w i ->
  exists mode : LogLevel,
    Logger_LogMode i w = (Done mode, w) /\
    (mode <= severity op ->
       writes_one_line w (snd (Logger_emit i op msg args w))
         ("[" +:+ LogLevel_String (severity op) +:+ "]") (fmt_Sprintf msg args)) /\
    (severity op < mode -> Logger_emit i op msg args w = (Done tt, w)).
Proof.
  pose proof (severity_below_Off op) as Hoff.
  pose proof (severity_from_Debug op) as Hdbg.
  destruct i as [|p|[a|]|[a|]|type p]; simpl; try contradiction.
  - intros _. exists LogLevelOff.
    split; [reflexivity |]. split; [lia |].
    intros _. apply NoOpLogger_emit_run.
  - intros (this & b & Hthis & Hsink & lg & Hlg).
    rewrite (DefaultLogger_LogMode_run a this w Hthis).
    rewrite (DefaultLogger_emit_run op a this msg args w Hthis), Hsink.
    rewrite (through_sink_at b lg _ _ _ _ _ w Hlg).
    eexists. split; [reflexivity |].
    destruct (dl_enabled this); simpl.
    + rewrite Z.gtb_ltb.
      split; intros H.
      * apply Z.ltb_ge in H. rewrite H. apply emitted_line_shows.
      * apply Z.ltb_lt in H. now rewrite H.
    + split; [lia | reflexivity].
  - intros (this & b & Hthis & Hsink & lg & Hlg).
    rewrite (StdLogger_LogMode_run a this w Hthis).
    rewrite (StdLogger_emit_run op a this msg args w Hthis), Hsink.
    rewrite (through_sink_at b lg _ _ _ _ _ w Hlg).
    eexists. split; [reflexivity |].
    destruct (sl_enabled this); simpl.
    + split; [intros _; apply emitted_line_shows | lia].
    + split; [lia | reflexivity].
Qed.

(** X8: with a level at or below Debug, negative ones included, an
    enabled [DefaultLogger] writes on every one of the five methods; with
    a level above Fatal, Off or any larger integer, it writes on none of
    them and [Fatal] returns. *)
Theorem DefaultLogger_level_extremes (a b : addr) (this : DefaultLogger)
    (lg : log_Logger) (w : World) :
  w_DefaultLoggers w !! a = Some this ->
  dl_logger this = Some b ->
  w_logs w !! b = Some lg ->
  dl_enabled this = true ->
  (dl_level this <= LogLevelDebug ->
     forall (op : EmitOp) (msg : string) (args : list any),
       writes_one_line w (snd (DefaultLogger_emit op (Some a) msg args w))
         ("[" +:+ LogLevel_String (severity op) +:+ "]") (fmt_Sprintf msg args))
  /\ (LogLevelFatal < dl_level this ->
     forall (op : EmitOp) (msg : string) (args : list any),
       DefaultLogger_emit op (Some a) msg args w = (Done tt, w)).
Proof.
  intros Hthis Hsink Hlg He.
  split; intros Hl op msg args;
    rewrite (DefaultLogger_emit_run op a this msg args w Hthis), Hsink, He;
    rewrite (through_sink_at b lg _ _ _ _ _ w Hlg); simpl;
    rewrite Z.gtb_ltb.
  - pose proof (severity_from_Debug op) as Hdbg.
    assert (H : (severity op <? dl_level this) = false) by (apply Z.ltb_ge; lia).
    rewrite H. apply emitted_line_shows.
  - pose proof (severity_to_Fatal op) as Hfat.
    assert (H : (severity op <? dl_level this) = true) by (apply Z.ltb_lt; lia).
    now rewrite H.
Qed.

(** *** A whole run on a DefaultLogger *)

Lemma passes_floor_filter (this : DefaultLogger) (op : EmitOp) :
  negb (dl_enabled this) || (dl_level this >? severity op)
  = negb (passes_floor this op).
Proof.
  unfold passes_floor. destruct (dl_enabled this); simpl; [| reflexivity].
  now rewrite Z.gtb_ltb, Z.leb_antisym, negb_involutive.
Qed.

Lemma World_write_all_out (records : list (io_Writer * string)) (w : World) :
  w_out (World_write_all records w) = (w_out w ++ records)%list
  /\ same_objects w (World_write_all records w)
  /\ w_now (World_write_all records w) = w_now w.
Proof.
  revert w. induction records as [|[dst bytes] rest IH]; intros w; simpl.
  - rewrite app_nil_r. split; [reflexivity |]. split; [apply same_objects_refl | reflexivity].
  - destruct (IH (World_write dst bytes w)) as (Hout & Hobj & Hnow).
    split; [| split].
    + rewrite Hout. simpl. now rewrite <- app_assoc.
    + eapply same_objects_trans; [| exact Hobj]. now repeat split.
    + exact Hnow.
Qed.

Lemma expected_records_length (this : DefaultLogger) (lg : log_Logger) (now : Z)
    (calls : list Call) :
  (length (expected_records this lg now calls) <= length calls)%nat.
Proof.
  induction calls as [|c rest IH]; [reflexivity |].
  cbn [expected_records length].
  destruct (passes_floor this (call_op c)); [| lia].
  destruct (call_op c); cbn [length]; lia.
Qed.

Lemma DefaultLogger_emit_all_run (a b : addr) (this : DefaultLogger)
    (lg : log_Logger) (calls : list Call) (w : World) :
  w_DefaultLoggers w !! a = Some this ->
  dl_logger this = Some b ->
  w_logs w !! b = Some lg ->
  Logger_emit_all (Logger_DefaultLogger (Some a)) calls w =
    (expected_outcome this calls,
     World_write_all (expected_records this lg (w_now w) calls) w).
Proof.
  intros Hthis Hsink. revert w Hthis.
  induction calls as [|c rest IH]; intros w Hthis Hlg; [reflexivity |].
  rewrite Logger_emit_all_cons. simpl.
  rewrite (DefaultLogger_emit_run _ a this _ _ w Hthis), Hsink.
  rewrite (through_sink_at b lg _ _ _ _ _ w Hlg).
  rewrite passes_floor_filter.
  destruct (passes_floor this (call_op c)); simpl; [| now apply IH].
  destruct (call_op c) eqn:Eop; simpl; try reflexivity;
    now rewrite (IH (World_write _ _ w) Hthis Hlg).
Qed.

(** X9: what a run of emit calls on a [DefaultLogger] with a
    [log.Logger] behind it leaves. The records added to the output are
    those of the calls that pass the filter, in the order of the calls, one
    each; the run ends with exit status 1 at the first [Fatal] that passes
    and no later call writes; a run without such a call returns. *)
Theorem DefaultLogger_run_as_expected (a b : addr) (this : DefaultLogger)
    (lg : log_Logger) (calls : list Call) (w : World) :
  w_DefaultLoggers w !! a = Some this ->
  dl_logger this = Some b ->
  w_logs w !! b = Some lg ->
  let r := Logger_emit_all (Logger_DefaultLogger (Some a)) calls w in
  r = (expected_outcome this calls,
       World_write_all (expected_records this lg (w_now w) calls) w)
  /\ w_out (snd r) = (w_out w ++ expected_records this lg (w_now w) calls)%list
  /\ (length (expected_records this lg (w_now w) calls) <= length calls)%nat.
Proof.
  intros Hthis Hsink Hlg r. subst r.
  rewrite (DefaultLogger_emit_all_run a b this lg calls w Hthis Hsink Hlg).
  split; [reflexivity |]. split; [| apply expected_records_length].
  simpl. apply World_write_all_out.
Qed.

(** *** The factory and the constructors, followed by a call *)

(** X10: the logger [NewLogger] builds when none is supplied writes
    to standard output, with the prefix of the config and the flags
    [LstdFlags|Lshortfile], and does so exactly when the level of the
    config is at most the severity of the call; [Fatal] then exits. *)
Theorem NewLogger_default_writes_to_Stdout (config : LogConfig) (op : EmitOp)
    (msg : string) (args : list any) (w : World) :
  cfg_Enable config = true ->
  cfg_Logger config = Logger_nil ->
  (l ← NewLogger config; Logger_emit l op msg args) w =
    let w' := snd (NewLogger config w) in
    if cfg_Level config <=? severity op then
      (after_emit op,
       World_write os_Stdout
         (log_record
            (log_formatHeader (cfg_Prefix config) (Z.lor log_LstdFlags log_Lshortfile)
               (w_now w) (here (DefaultLogger_line op)))
            (bracket_tag (severity op) +:+ fmt_Sprintf msg args))
         w')
    else (Done tt, w').
Proof.
  intros He Hl.
  unfold mbind, Go_bind. rewrite (NewLogger_nil_run config w He Hl).
  rewrite NewDefaultLogger_run. simpl.
  erewrite DefaultLogger_emit_run by apply lookup_insert_eq.
  simpl. rewrite Z.gtb_ltb, Z.leb_antisym.
  destruct (severity op <? cfg_Level config); simpl; [reflexivity |].
  erewrite through_sink_at by apply lookup_insert_eq.
  reflexivity.
Qed.

(** X11: [NewStdLogger] wraps the logger it is given (the
    package-level one for [nil]) without copying it: no [log.Logger] is
    allocated and nothing is written. The [LogMode] of the result is Debug
    or Off after the flag given, and its emit methods write to the
    destination of the wrapped logger when the flag is true and return
    untouched when it is false. *)
Theorem NewStdLogger_wraps_without_copy (logger : ptr) (enabled : bool)
    (lg : log_Logger) (w : World) :
  w_logs w !! default log_std logger = Some lg ->
  exists (a : addr) (w' : World),
    NewStdLogger logger enabled w = (Done (Some a), w') /\
    w_logs w' = w_logs w /\
    w_DefaultLoggers w' = w_DefaultLoggers w /\
    w_out w' = w_out w /\
    StdLogger_LogMode (Some a) w' =
      (Done (if enabled then LogLevelDebug else LogLevelOff), w') /\
    forall (op : EmitOp) (msg : string) (args : list any),
      StdLogger_emit op (Some a) msg args w' =
        if enabled then
          (after_emit op,
           World_write (lg_out lg)
             (emitted_line lg (w_now w) (StdLogger_line op) op msg args) w')
        else (Done tt, w').
Proof.
  intros Hlg.
  set (this := {| sl_logger := Some (default log_std logger); sl_enabled := enabled |}).
  set (a := fresh (dom (w_StdLoggers w))).
  exists a, (World_alloc_StdLogger a this w).
  assert (Hat : w_StdLoggers (World_alloc_StdLogger a this w) !! a = Some this)
    by apply lookup_insert_eq.
  split; [now destruct logger |].
  repeat (split; [reflexivity |]).
  split.
  - rewrite (StdLogger_LogMode_run a this _ Hat). now destruct enabled.
  - intros op msg args.
    rewrite (StdLogger_emit_run op a this msg args _ Hat). simpl.
    destruct enabled; simpl; [| reflexivity].
    now rewrite (through_sink_at _ lg _ _ _ _ _ (World_alloc_StdLogger a this w) Hlg).
Qed.

End LoggerGo.

(** ** The fragment of fmt satisfies the assumption on [fmt.Sprintf] *)

Lemma Sprintf_fragment_literal (lit format : string) (args : list any_value) :
  no_verb lit = true ->
  Sprintf_fragment (lit +:+ format) args = lit +:+ Sprintf_fragment format args.
Proof.
  induction lit as [|c lit IH]; intros H; [reflexivity |].
  simpl in H. apply andb_true_iff in H. destruct H as [Hc Hrest].
  rewrite !append_cons. simpl.
  apply negb_true_iff in Hc. rewrite Hc.
  f_equal. now apply IH.
Qed.

(** ** The scenarios of the tests, run *)

(** A logger at level Warn drops Debug and Info and writes Warn and Error. *)
Example level_Warn_run :
  Logger_emit_all any_value Sprintf_fragment formatHeader_fragment no_foreign_emit
    (Logger_DefaultLogger (Some 1%positive))
    [ mk_Call any_value OpDebug "This should not be logged" [];
      mk_Call any_value OpInfo "This should not be logged" [];
      mk_Call any_value OpWarn "This should be logged" [];
      mk_Call any_value OpError "x=%d" [any_int 5] ]
    World_tests
  = (Done tt,
     World_write (io_buffer 0) ("[LEVEL] [ERROR] x=5" +:+ newline)
       (World_write (io_buffer 0) ("[LEVEL] [WARN] This should be logged" +:+ newline)
          World_tests)).
Proof. vm_compute. reflexivity. Qed.

(** The default logger of the factory writes to standard output with the
    prefix of the config, and stops the process at Fatal. *)
Example factory_default_run :
  let run :=
    l ← NewLogger LogConfig_default;
    Logger_emit_all any_value Sprintf_fragment formatHeader_fragment no_foreign_emit l
      [ mk_Call any_value OpDebug "dropped" [];
        mk_Call any_value OpInfo "x=%d" [any_int 5];
        mk_Call any_value OpFatal "bye %s" [any_string "now"];
        mk_Call any_value OpError "never reached" [] ] in
  fst (run World_start) = Exit 1 /\
  w_out (snd (run World_start)) =
    [ (os_Stdout, "bot t=1700000000 logger.go:95: [INFO] x=5" +:+ newline);
      (os_Stdout, "bot t=1700000000 logger.go:119: [FATAL] bye now" +:+ newline) ].
Proof. vm_compute. split; reflexivity. Qed.

(** ** The theorems at the sample inputs *)

Lemma NewLogger_decision_order_witness :
  NewLogger LogConfig_disabled World_tests
    = (Done (Logger_NoOpLogger (Some runtime_zerobase)), World_tests)
  /\ NewLogger LogConfig_custom World_tests
    = (Done (Logger_foreign "CustomTestLogger" (Some 7%positive)), World_tests)
  /\ exists (a : addr) (w' : World),
       NewLogger LogConfig_default World_tests = (Done (Logger_DefaultLogger (Some a)), w')
       /\ w_DefaultLoggers World_tests !! a = None
       /\ w_out w' = [].
Proof.
  split; [| split].
  - apply (proj1 (NewLogger_decision_order LogConfig_disabled World_tests)).
    reflexivity.
  - apply (proj1 (proj2 (NewLogger_decision_order LogConfig_custom World_tests)));
      [reflexivity | discriminate].
  - destruct (proj2 (proj2 (NewLogger_decision_order LogConfig_default World_tests))
                eq_refl eq_refl)
      as (a & b & w' & Hrun & Ha & _ & _ & _ & _ & Hout).
    exists a, w'. split; [exact Hrun |]. split; [exact Ha | exact Hout].
Defined.

Lemma DefaultLogger_emit_level_floor_witness :
  let emit op :=
    snd (DefaultLogger_emit any_value Sprintf_fragment formatHeader_fragment op
           (Some 1%positive) "x=%d" [any_int 5] World_tests) in
  emit OpError = World_write (io_buffer 0) ("[LEVEL] [ERROR] x=5" +:+ newline) World_tests
  /\ emit OpInfo = World_tests.
Proof.
  pose (this := {| dl_logger := Some 2%positive; dl_enabled := true;
                   dl_level := LogLevelWarn |}).
  pose (lg := mk_log_Logger (io_buffer 0) "[LEVEL] " 0).
  split.
  - exact (proj1 (proj2
      (DefaultLogger_emit_level_floor any_value Sprintf_fragment formatHeader_fragment
         Sprintf_fragment_literal 1%positive 2%positive this lg OpError "x=%d"
         [any_int 5] World_tests eq_refl eq_refl eq_refl))
      eq_refl ltac:(vm_compute; discriminate)).
  - apply (proj2 (proj2
      (DefaultLogger_emit_level_floor any_value Sprintf_fragment formatHeader_fragment
         Sprintf_fragment_literal 1%positive 2%positive this lg OpInfo "x=%d"
         [any_int 5] World_tests eq_refl eq_refl eq_refl))).
    right. reflexivity.
Defined.

Lemma NewLogger_disabled_silent_witness :
  exists lgr : Logger,
    NewLogger LogConfig_disabled World_tests = (Done lgr, World_tests) /\
    (forall w1 : World, Logger_LogMode no_foreign_LogMode lgr w1 = (Done LogLevelOff, w1)) /\
    (forall (op : EmitOp) (msg : string) (args : list any_value) (w1 : World),
       Logger_emit any_value Sprintf_fragment formatHeader_fragment no_foreign_emit
         lgr op msg args w1 = (Done tt, w1)).
Proof.
  apply (NewLogger_disabled_silent any_value Sprintf_fragment formatHeader_fragment
           no_foreign_emit no_foreign_LogMode LogConfig_disabled World_tests).
  reflexivity.
Defined.

Lemma NewLogger_default_LogMode_witness :
  exists (a : addr) (w' : World),
    NewLogger LogConfig_default World_start = (Done (Logger_DefaultLogger (Some a)), w') /\
    forall w1 : World,
      w_DefaultLoggers w1 !! a = w_DefaultLoggers w' !! a ->
      Logger_LogMode no_foreign_LogMode (Logger_DefaultLogger (Some a)) w1
        = (Done LogLevelInfo, w1).
Proof.
  apply (NewLogger_default_LogMode no_foreign_LogMode LogConfig_default World_start);
    reflexivity.
Defined.

Lemma StdLogger_gated_by_enabled_only_witness :
  StdLogger_emit any_value Sprintf_fragment formatHeader_fragment OpDebug
    (Some 1%positive) "hello %s" [any_string "bot"] World_tests
  = (Done tt,
     World_write os_Stderr ("t=1700000000 [DEBUG] hello bot" +:+ newline) World_tests)
  /\ StdLogger_LogMode (Some 1%positive) World_tests = (Done LogLevelDebug, World_tests).
Proof.
  pose (this := {| sl_logger := Some log_std; sl_enabled := true |}).
  pose (lg := mk_log_Logger os_Stderr "" log_LstdFlags).
  destruct (StdLogger_gated_by_enabled_only any_value Sprintf_fragment
              formatHeader_fragment Sprintf_fragment_literal 1%positive log_std this lg
              World_tests eq_refl eq_refl eq_refl)
    as (Hon & _ & Hmode).
  split; [| exact Hmode].
  exact (proj1 (Hon eq_refl OpDebug "hello %s" [any_string "bot"])).
Defined.

Lemma DefaultLogger_Fatal_exits_after_write_witness :
  DefaultLogger_Fatal any_value Sprintf_fragment formatHeader_fragment
    (Some 1%positive) "bye" [] World_tests
  = (Exit 1, World_write (io_buffer 0) ("[LEVEL] [FATAL] bye" +:+ newline) World_tests).
Proof.
  pose (this := {| dl_logger := Some 2%positive; dl_enabled := true;
                   dl_level := LogLevelWarn |}).
  pose (lg := mk_log_Logger (io_buffer 0) "[LEVEL] " 0).
  refine (proj1 (proj1 (proj2
    (DefaultLogger_Fatal_exits_after_write any_value Sprintf_fragment
       formatHeader_fragment Sprintf_fragment_literal 1%positive 2%positive this lg
       "bye" [] World_tests eq_refl eq_refl eq_refl)) _)).
  split; [reflexivity | vm_compute; discriminate].
Defined.

Lemma NewLogger_level_Off_quiet_witness :
  exists (a : addr) (this : DefaultLogger) (w' : World),
    NewLogger LogConfig_Off World_start = (Done (Logger_DefaultLogger (Some a)), w') /\
    w_DefaultLoggers w' !! a = Some this /\
    dl_enabled this = true /\
    dl_level this = LogLevelOff /\
    (forall (op : EmitOp) (msg : string) (args : list any_value),
       Logger_emit any_value Sprintf_fragment formatHeader_fragment no_foreign_emit
         (Logger_DefaultLogger (Some a)) op msg args w' = (Done tt, w')) /\
    (forall calls : list (Call any_value),
       Logger_emit_all any_value Sprintf_fragment formatHeader_fragment no_foreign_emit
         (Logger_DefaultLogger (Some a)) calls w' = (Done tt, w')).
Proof.
  apply (NewLogger_level_Off_quiet any_value Sprintf_fragment formatHeader_fragment
           no_foreign_emit LogConfig_Off World_start);
    reflexivity.
Defined.

Lemma NewStdLogger_sink_never_nil_witness :
  exists (a sink : addr) (w' : World),
    NewStdLogger None true World_start = (Done (Some a), w') /\
    w_StdLoggers World_start !! a = None /\
    w_StdLoggers w' !! a = Some {| sl_logger := Some sink; sl_enabled := true |} /\
    sink = log_std /\
    is_Some (w_logs w' !! sink) /\
    (forall (op : EmitOp) (msg : string) (args : list any_value),
       ~ panics (fst (StdLogger_emit any_value Sprintf_fragment formatHeader_fragment
                        op (Some a) msg args w'))) /\
    (forall calls : list (Call any_value),
       ~ panics (fst (Logger_emit_all any_value Sprintf_fragment formatHeader_fragment
                        no_foreign_emit (Logger_StdLogger (Some a)) calls w'))).
Proof.
  apply (NewStdLogger_sink_never_nil any_value Sprintf_fragment formatHeader_fragment
           no_foreign_emit None true World_start).
  - exists (mk_log_Logger os_Stderr "" log_LstdFlags). reflexivity.
  - intros b H. discriminate H.
Defined.

Lemma StdLogger_disabled_Fatal_returns_witness :
  StdLogger_Fatal any_value Sprintf_fragment formatHeader_fragment
    (Some 2%positive) "bye %d" [any_int 1] World_tests = (Done tt, World_tests).
Proof.
  apply (proj1 (StdLogger_disabled_Fatal_returns any_value Sprintf_fragment
                  formatHeader_fragment 2%positive
                  {| sl_logger := None; sl_enabled := false |}
                  "bye %d" [any_int 1] World_tests eq_refl eq_refl)).
Defined.

Lemma methods_leave_loggers_unchanged_witness :
  same_objects World_tests
    (snd (Logger_emit any_value Sprintf_fragment formatHeader_fragment no_foreign_emit
            (Logger_DefaultLogger (Some 1%positive)) OpFatal "bye" [] World_tests)).
Proof.
  pose proof (proj1 (methods_leave_loggers_unchanged any_value Sprintf_fragment
                       formatHeader_fragment no_foreign_emit no_foreign_LogMode
                       (Some 1%positive) World_tests)) as H.
  apply Forall_cons in H. destruct H as [[H _] _].
  apply H.
Defined.

(** ** The further properties at the sample inputs *)

Lemma LogLevel_String_tells_level_witness :
  LogLevel_String 7 = "UNKNOWN" /\ LogLevelWarn = 2.
Proof.
  split.
  - apply (proj1 (LogLevel_String_tells_level 7 0)). right. reflexivity.
  - apply (proj2 (LogLevel_String_tells_level LogLevelWarn 2));
      [split; discriminate | reflexivity].
Defined.

Lemma only_Fatal_ends_the_process_witness :
  OpFatal = OpFatal /\ 1 = 1 /\
  (forall p : ptr, Logger_DefaultLogger (Some 1%positive) <> Logger_NoOpLogger p).
Proof.
  apply (only_Fatal_ends_the_process any_value Sprintf_fragment formatHeader_fragment
           no_foreign_emit (Logger_DefaultLogger (Some 1%positive)) OpFatal "bye" []
           World_tests 1 I).
  vm_compute. reflexivity.
Defined.

Lemma NewLogger_returns_non_nil_witness :
  exists (l : Logger) (w' : World),
    NewLogger LogConfig_default World_start = (Done l, w') /\
    l <> Logger_nil /\ w_out w' = [].
Proof.
  destruct (NewLogger_returns_non_nil LogConfig_default World_start)
    as (l & w' & Hrun & Hl & Hout & _).
  exists l, w'. split; [exact Hrun |]. split; [exact Hl | exact Hout].
Defined.

Lemma NewDefaultLogger_twice_distinct_witness :
  exists (a1 a2 : addr) (w2 : World),
    (p1 ← NewDefaultLogger LogLevelDebug "a: ";
     p2 ← NewDefaultLogger LogLevelError "b: ";
     mret (p1, p2)) World_start = (Done (Some a1, Some a2), w2) /\
    a1 <> a2.
Proof.
  destruct (NewDefaultLogger_twice_distinct LogLevelDebug LogLevelError "a: " "b: "
              World_start)
    as (a1 & a2 & b1 & b2 & w2 & Hrun & Ha & _).
  exists a1, a2, w2. split; [exact Hrun | exact Ha].
Defined.

Lemma typed_nil_Logger_passes_the_factory_witness :
  NewLogger LogConfig_typed_nil World_start = (Done (Logger_DefaultLogger None), World_start)
  /\ Logger_emit any_value Sprintf_fragment formatHeader_fragment no_foreign_emit
       (Logger_DefaultLogger None) OpInfo "hello" [] World_start
     = (Panic nil_dereference, World_start).
Proof.
  destruct (proj1 (typed_nil_Logger_passes_the_factory any_value Sprintf_fragment
                     formatHeader_fragment no_foreign_emit no_foreign_LogMode
                     LogConfig_typed_nil World_start eq_refl) (or_introl eq_refl))
    as (Hrun & Hemit & _).
  split; [exact Hrun | apply (Hemit OpInfo "hello" [] World_start)].
Defined.

Lemma DefaultLogger_nil_sink_witness :
  DefaultLogger_emit any_value Sprintf_fragment formatHeader_fragment OpWarn
    (Some 1%positive) "hello" [] World_literals
  = (Panic nil_dereference, World_literals).
Proof.
  destruct (DefaultLogger_nil_sink any_value Sprintf_fragment formatHeader_fragment
              1%positive
              {| dl_logger := None; dl_enabled := true; dl_level := LogLevelInfo |}
              OpWarn "hello" [] World_literals eq_refl eq_refl)
    as (Hw & Hpanic & _).
  apply injective_projections; [| exact Hw].
  apply Hpanic. split; [reflexivity | discriminate].
Defined.

Lemma LogMode_agrees_with_emit_witness :
  exists mode : LogLevel,
    Logger_LogMode no_foreign_LogMode (Logger_DefaultLogger (Some 1%positive)) World_tests
      = (Done mode, World_tests) /\
    (severity OpInfo < mode ->
       Logger_emit any_value Sprintf_fragment formatHeader_fragment no_foreign_emit
         (Logger_DefaultLogger (Some 1%positive)) OpInfo "hello" [] World_tests
       = (Done tt, World_tests)).
Proof.
  destruct (LogMode_agrees_with_emit any_value Sprintf_fragment formatHeader_fragment
              Sprintf_fragment_literal no_foreign_emit no_foreign_LogMode
              (Logger_DefaultLogger (Some 1%positive)) OpInfo "hello" [] World_tests)
    as (mode & Hmode & _ & Hdrop).
  - exists {| dl_logger := Some 2%positive; dl_enabled := true; dl_level := LogLevelWarn |},
           2%positive.
    split; [reflexivity |]. split; [reflexivity |].
    exists (mk_log_Logger (io_buffer 0) "[LEVEL] " 0). reflexivity.
  - exists mode. split; [exact Hmode | exact Hdrop].
Defined.

Lemma DefaultLogger_level_extremes_witness :
  writes_one_line World_literals
    (snd (DefaultLogger_emit any_value Sprintf_fragment formatHeader_fragment OpDebug
            (Some 2%positive) "x=%d" [any_int 5] World_literals))
    "[DEBUG]" "x=5"
  /\ DefaultLogger_emit any_value Sprintf_fragment formatHeader_fragment OpFatal
       (Some 3%positive) "bye" [] World_literals = (Done tt, World_literals).
Proof.
  pose (lg := mk_log_Logger (io_buffer 0) "[LEVEL] " 0).
  split.
  - apply (proj1 (DefaultLogger_level_extremes any_value Sprintf_fragment
                    formatHeader_fragment Sprintf_fragment_literal 2%positive 2%positive
                    {| dl_logger := Some 2%positive; dl_enabled := true; dl_level := -3 |}
                    lg World_literals eq_refl eq_refl eq_refl eq_refl)).
    discriminate.
  - apply (proj2 (DefaultLogger_level_extremes any_value Sprintf_fragment
                    formatHeader_fragment Sprintf_fragment_literal 3%positive 2%positive
                    {| dl_logger := Some 2%positive; dl_enabled := true; dl_level := 9 |}
                    lg World_literals eq_refl eq_refl eq_refl eq_refl)).
    reflexivity.
Defined.

Lemma DefaultLogger_run_as_expected_witness :
  w_out (snd (Logger_emit_all any_value Sprintf_fragment formatHeader_fragment
                no_foreign_emit (Logger_DefaultLogger (Some 1%positive))
                [ mk_Call any_value OpInfo "dropped" [];
                  mk_Call any_value OpError "x=%d" [any_int 5];
                  mk_Call any_value OpFatal "bye" [];
                  mk_Call any_value OpWarn "too late" [] ]
                World_tests))
  = [ (io_buffer 0, "[LEVEL] [ERROR] x=5" +:+ newline);
      (io_buffer 0, "[LEVEL] [FATAL] bye" +:+ newline) ].
Proof.
  exact (proj1 (proj2
    (DefaultLogger_run_as_expected any_value Sprintf_fragment formatHeader_fragment
       Sprintf_fragment_literal no_foreign_emit 1%positive 2%positive
       {| dl_logger := Some 2%positive; dl_enabled := true; dl_level := LogLevelWarn |}
       (mk_log_Logger (io_buffer 0) "[LEVEL] " 0)
       [ mk_Call any_value OpInfo "dropped" [];
         mk_Call any_value OpError "x=%d" [any_int 5];
         mk_Call any_value OpFatal "bye" [];
         mk_Call any_value OpWarn "too late" [] ]
       World_tests eq_refl eq_refl eq_refl))).
Defined.

Lemma NewLogger_default_writes_to_Stdout_witness :
  (l ← NewLogger LogConfig_default;
   Logger_emit any_value Sprintf_fragment formatHeader_fragment no_foreign_emit
     l OpWarn "x=%d" [any_int 5]) World_start
  = (Done tt,
     World_write os_Stdout ("bot t=1700000000 logger.go:103: [WARN] x=5" +:+ newline)
       (snd (NewLogger LogConfig_default World_start))).
Proof.
  exact (NewLogger_default_writes_to_Stdout any_value Sprintf_fragment
           formatHeader_fragment Sprintf_fragment_literal no_foreign_emit
           LogConfig_default OpWarn "x=%d" [any_int 5] World_start eq_refl eq_refl).
Defined.

Lemma NewStdLogger_wraps_without_copy_witness :
  exists (a : addr) (w' : World),
    NewStdLogger None true World_start = (Done (Some a), w') /\
    w_logs w' = w_logs World_start /\
    StdLogger_emit any_value Sprintf_fragment formatHeader_fragment OpError
      (Some a) "x=%d" [any_int 5] w'
    = (Done tt,
       World_write os_Stderr ("t=1700000000 [ERROR] x=5" +:+ newline) w').
Proof.
  destruct (NewStdLogger_wraps_without_copy any_value Sprintf_fragment
              formatHeader_fragment Sprintf_fragment_literal None true
              (mk_log_Logger os_Stderr "" log_LstdFlags) World_start eq_refl)
    as (a & w' & Hrun & Hlogs & _ & _ & _ & Hemit).
  exists a, w'. split; [exact Hrun |]. split; [exact Hlogs |].
  exact (Hemit OpError "x=%d" [any_int 5]).
Defined.
